(** * check_sheet.py: a shallow embedding of the sheet reader

    The script authenticates with a service-account key file, lists the
    worksheets of one spreadsheet, picks the worksheet whose title contains
    a fixed substring, fetches a fixed range of cells from it and prints the
    rows.  The remote service and the key file are outside the program: they
    are modelled as a [World] that answers every external call, and the
    script as a computation in a state-and-exception monad whose state is
    what the run leaves behind (the text written to standard output and the
    sequence of external calls). *)

From Stdlib Require Import String Ascii List Bool Arith NArith Lia.
Import ListNotations.

Open Scope string_scope.
Open Scope list_scope.

(** ** Python built-ins used by the script *)

Module Py.

(** Python [str] values are kept as their UTF-8 bytes: the script wraps
    standard output in a UTF-8 writer, so these bytes are what is
    printed. *)

Definition nl : string := String "010"%char EmptyString.

(** [needle in hay] on [str]: some position of [hay] starts with
    [needle].  Characters are compared as they are. *)
Fixpoint str_in (needle hay : string) : bool :=
  if String.prefix needle hay then true
  else match hay with
       | EmptyString => false
       | String _ rest => str_in needle rest
       end.

(** The relation [str_in] decides. *)
Definition Substring (needle hay : string) : Prop :=
  exists pre post : string, hay = (pre ++ needle ++ post)%string.

(** [sep.join(parts)] *)
Fixpoint join (sep : string) (parts : list string) : string :=
  match parts with
  | [] => EmptyString
  | [p] => p
  | p :: rest => (p ++ sep ++ join sep rest)%string
  end.

Fixpoint has_char (c : ascii) (s : string) : bool :=
  match s with
  | EmptyString => false
  | String d rest => if Ascii.eqb c d then true else has_char c rest
  end.

Definition hex_digit (n : nat) : ascii :=
  nth n ["0"; "1"; "2"; "3"; "4"; "5"; "6"; "7"; "8"; "9";
         "a"; "b"; "c"; "d"; "e"; "f"]%char "0"%char.

(** [width] hexadecimal digits of [cp], the most significant first, in
    lower case. *)
Fixpoint hex_digits (cp : N) (width : nat) : string :=
  match width with
  | O => EmptyString
  | S k =>
      String (hex_digit (N.to_nat ((cp / 16 ^ N.of_nat k) mod 16)))
             (hex_digits cp k)
  end.

(** One character of [repr] of a [str] delimited by [quote]; [cp] is the
    code point of the character and [raw] its UTF-8 bytes.  The quote and
    the backslash are escaped, then tab, newline and carriage return, then
    the other control characters of ASCII as [\xhh]; the other ASCII
    characters are copied.  A character from U+0080 up is copied when
    [str.isprintable] holds of it and is otherwise written [\xhh],
    [\uhhhh] or [\Uhhhhhhhh], by the size of its code point.  The table
    behind [str.isprintable] belongs to the interpreter and is taken as the
    parameter [isprintable]. *)
Definition repr_char (isprintable : N -> bool) (quote : ascii)
  (cp : N) (raw : string) : string :=
  if N.eqb cp (N_of_ascii quote) || N.eqb cp 92 then String "\"%char raw
  else if N.eqb cp 9 then "\t"
  else if N.eqb cp 10 then "\n"
  else if N.eqb cp 13 then "\r"
  else if N.ltb cp 32 || N.eqb cp 127 then ("\x" ++ hex_digits cp 2)%string
  else if N.ltb cp 127 then raw
  else if isprintable cp then raw
  else if N.leb cp 255 then ("\x" ++ hex_digits cp 2)%string
  else if N.leb cp 65535 then ("\u" ++ hex_digits cp 4)%string
  else ("\U" ++ hex_digits cp 8)%string.

(** The bytes of UTF-8: a continuation byte is [10xxxxxx]; the first byte
    of a character of two, three and four bytes is [110xxxxx], [1110xxxx]
    and [11110xxx]. *)
Definition is_cont (b : ascii) : bool :=
  N.leb 128 (N_of_ascii b) && N.ltb (N_of_ascii b) 192.

Definition is_lead2 (b : ascii) : bool :=
  N.leb 192 (N_of_ascii b) && N.ltb (N_of_ascii b) 224.

Definition is_lead3 (b : ascii) : bool :=
  N.leb 224 (N_of_ascii b) && N.ltb (N_of_ascii b) 240.

Definition is_lead4 (b : ascii) : bool :=
  N.leb 240 (N_of_ascii b) && N.ltb (N_of_ascii b) 248.

(** The payload of a continuation byte and the code points of characters
    of two, three and four bytes. *)
Definition cont_bits (b : ascii) : N := N_of_ascii b - 128.

Definition code_point2 (b0 b1 : ascii) : N :=
  (N_of_ascii b0 - 192) * 64 + cont_bits b1.

Definition code_point3 (b0 b1 b2 : ascii) : N :=
  (N_of_ascii b0 - 224) * 4096 + cont_bits b1 * 64 + cont_bits b2.

Definition code_point4 (b0 b1 b2 b3 : ascii) : N :=
  (N_of_ascii b0 - 240) * 262144 + cont_bits b1 * 4096
  + cont_bits b2 * 64 + cont_bits b3.

(** [repr] of the characters of a [str], one after the other.  The text
    is read character by character: a byte below 0x80 is a character of
    its own, a first byte followed by its continuation bytes is one
    character.  A byte that starts no character (which the bytes of a
    [str] never hold) is read as the character of that code. *)
Fixpoint repr_chars (isprintable : N -> bool) (quote : ascii) (s : string)
  : string :=
  match s with
  | EmptyString => EmptyString
  | String b0 s1 =>
      let one :=
        (repr_char isprintable quote (N_of_ascii b0) (String b0 EmptyString)
         ++ repr_chars isprintable quote s1)%string in
      if is_lead2 b0 then
        match s1 with
        | String b1 s2 =>
            if is_cont b1 then
              (repr_char isprintable quote (code_point2 b0 b1)
                 (String b0 (String b1 EmptyString))
               ++ repr_chars isprintable quote s2)%string
            else one
        | _ => one
        end
      else if is_lead3 b0 then
        match s1 with
        | String b1 (String b2 s3) =>
            if is_cont b1 && is_cont b2 then
              (repr_char isprintable quote (code_point3 b0 b1 b2)
                 (String b0 (String b1 (String b2 EmptyString)))
               ++ repr_chars isprintable quote s3)%string
            else one
        | _ => one
        end
      else if is_lead4 b0 then
        match s1 with
        | String b1 (String b2 (String b3 s4)) =>
            if is_cont b1 && is_cont b2 && is_cont b3 then
              (repr_char isprintable quote (code_point4 b0 b1 b2 b3)
                 (String b0 (String b1 (String b2 (String b3 EmptyString))))
               ++ repr_chars isprintable quote s4)%string
            else one
        | _ => one
        end
      else one
  end.

(** [repr(s)] for a [str]: single quotes, unless the text holds a single
    quote and no double quote. *)
Definition repr_str (isprintable : N -> bool) (s : string) : string :=
  let quote :=
    if has_char "'"%char s && negb (has_char "034"%char s)
    then "034"%char else "'"%char in
  String quote (repr_chars isprintable quote s ++ String quote EmptyString)%string.

(** [str(row)] for a list of [str], which is what [print(row)] writes. *)
Definition repr_list (isprintable : N -> bool) (row : list string) : string :=
  ("[" ++ join ", " (map (repr_str isprintable) row) ++ "]")%string.

(** [d.get(key, default)] where [field] is the entry of [d] under the
    key, if it has one. *)
Definition dict_get {A : Type} (field : option A) (default : A) : A :=
  match field with
  | Some v => v
  | None => default
  end.

(** Truth value of a list: [not xs] holds exactly of the empty list. *)
Definition not_ {A : Type} (xs : list A) : bool :=
  match xs with
  | [] => true
  | _ :: _ => false
  end.

End Py.

(** ** Data model *)

(** The two kinds of failure the script can meet. *)
Inductive ErrorKind : Type :=
| AuthenticationError
| RemoteError.

(** A raised exception: its kind and the text [str(e)] gives. *)
Record exn : Type := mkExn {
  exn_kind : ErrorKind;
  exn_str : string
}.

Inductive result (A : Type) : Type :=
| Ok (a : A)
| Raise (e : exn).

Arguments Ok {A} a.
Arguments Raise {A} e.

(** The handle [from_service_account_file] returns. *)
Record Credentials : Type := mkCredentials {
  cred_file : string;
  cred_scopes : list string
}.

(** [build('sheets', 'v4', credentials=creds)] *)
Record Service : Type := mkService {
  service_name : string;
  service_version : string;
  service_credentials : Credentials
}.

(** [{'properties': {'title': ...}}], one entry of the ['sheets'] list *)
Record SheetProperties : Type := mkSheetProperties {
  title : string
}.

Record Sheet : Type := mkSheet {
  properties : SheetProperties
}.

(** The metadata response; ['sheets'] may be absent. *)
Record Spreadsheet : Type := mkSpreadsheet {
  sheets : option (list Sheet)
}.

(** The values response; ['values'] may be absent. *)
Record ValueRange : Type := mkValueRange {
  values : option (list (list string))
}.

(** External calls, as a run makes them. *)
Inductive Call : Type :=
| CallAuth (file : string) (scopes : list string)
| CallGet (spreadsheet_id : string)
| CallValuesGet (spreadsheet_id : string) (range : string).

(** What a run leaves behind: the arguments of its [print] calls, oldest
    first (each is followed by a newline on standard output), and its
    external calls, oldest first. *)
Record State : Type := mkState {
  stdout : list string;
  calls : list Call
}.

Definition init : State := mkState [] [].

(** The outside: the key file, the remote service and the character table
    of the interpreter.  Each answer may depend on how many external calls
    the run has made before and on the arguments of the call;
    [isprintable cp] tells whether [str.isprintable] holds of the
    character of code point [cp]. *)
Record World : Type := mkWorld {
  from_service_account_file :
    nat -> string -> list string -> result Credentials;
  spreadsheets_get_execute :
    nat -> Service -> string -> result Spreadsheet;
  values_get_execute :
    nat -> Service -> string -> string -> result ValueRange;
  isprintable : N -> bool
}.

(** ** The monad of the script: state that survives a raised exception *)

Definition M (A : Type) : Type := State -> result A * State.

Definition ret {A : Type} (a : A) : M A := fun st => (Ok a, st).

Definition bind {A B : Type} (m : M A) (k : A -> M B) : M B :=
  fun st =>
    match m st with
    | (Ok a, st') => k a st'
    | (Raise e, st') => (Raise e, st')
    end.

(** [try: body  except Exception as e: handler] *)
Definition try_except {A : Type} (body : M A) (handler : exn -> M A) : M A :=
  fun st =>
    match body st with
    | (Ok a, st') => (Ok a, st')
    | (Raise e, st') => handler e st'
    end.

Notation "x <- c1 ;; c2" := (bind c1 (fun x => c2))
  (at level 61, c1 at next level, right associativity).
Notation "c1 ;; c2" := (bind c1 (fun _ => c2))
  (at level 61, right associativity).

Definition print (text : string) : M unit :=
  fun st => (Ok tt, mkState (stdout st ++ [text]) (calls st)).

(** [for x in xs: body] without [break] *)
Fixpoint for_each {A : Type} (xs : list A) (body : A -> M unit) : M unit :=
  match xs with
  | [] => ret tt
  | x :: rest => body x ;; for_each rest body
  end.

(** ** The script *)

Definition SERVICE_ACCOUNT_FILE : string :=
  "C:\Users\Leader\PycharmProjects\ai\wallet\service-account-key.json".

Definition SCOPES : list string :=
  ["https://www.googleapis.com/auth/spreadsheets.readonly"].

(** The literal ['PROMT Temp: UX'] both loops test titles against. *)
Definition TARGET : string := "PROMT Temp: UX".

Definition SPREADSHEET_ID : string :=
  "10Ro4U_7M0w3bEw_5nunNcy6hTB64oba4q5MAwjNNJPM".

(** The name the script starts with: ['PROMT Temp: UX Resear?her'] whose
    [?] is the Cyrillic letter U+0441, bytes 0xD1 0x81 in UTF-8. *)
Definition SHEET_NAME : string :=
  ("PROMT Temp: UX Resear"
   ++ String "209"%char (String "129"%char EmptyString)
   ++ "her")%string.

(** The name of the second attempt, in Latin letters only. *)
Definition SHEET_NAME_VARIATION : string := "PROMT Temp: UX Researcher".

Definition RANGE_NAME : string := "A1:Z100".

(** [build] makes the client from the handle.  Were it to raise, the run
    would leave the code at the place where a failure of
    [from_service_account_file] leaves it, one statement earlier; such a
    failure is counted with the authentication. *)
Definition build (serviceName version : string) (credentials : Credentials)
  : Service :=
  mkService serviceName version credentials.

(** The range argument of the values request: [f"'{sheet_name}'!{range_name}"] *)
Definition range_arg (sheet_name range_name : string) : string :=
  ("'" ++ sheet_name ++ "'!" ++ range_name)%string.

(** Lines 42 to 49: what is printed once the values request has returned. *)
Definition report (isprintable : N -> bool) (sheet_name range_name : string)
  (result : ValueRange) : M unit :=
  let values := Py.dict_get (values result) [] in
  if Py.not_ values then
    print "No data found in the specified range."
  else
    print (Py.nl ++ "Data from " ++ sheet_name ++ "!" ++ range_name ++ ":")%string ;;
    for_each values (fun row => print (Py.repr_list isprintable row)).

Section Script.

Variable w : World.

(** The three external operations; each records the call and returns
    what the world answers at this point of the run. *)

Definition Credentials_from_service_account_file
  (file : string) (scopes : list string) : M Credentials :=
  fun st =>
    (from_service_account_file w (List.length (calls st)) file scopes,
     mkState (stdout st) (calls st ++ [CallAuth file scopes])).

Definition sheet_get_execute (service : Service) (spreadsheetId : string)
  : M Spreadsheet :=
  fun st =>
    (spreadsheets_get_execute w (List.length (calls st)) service spreadsheetId,
     mkState (stdout st) (calls st ++ [CallGet spreadsheetId])).

Definition sheet_values_get_execute
  (service : Service) (spreadsheetId range : string) : M ValueRange :=
  fun st =>
    (values_get_execute w (List.length (calls st)) service spreadsheetId range,
     mkState (stdout st) (calls st ++ [CallValuesGet spreadsheetId range])).

Definition get_sheet_data (spreadsheet_id sheet_name range_name : string)
  : M unit :=
  creds <- Credentials_from_service_account_file SERVICE_ACCOUNT_FILE SCOPES ;;
  let service := build "sheets" "v4" creds in
  spreadsheet <- sheet_get_execute service spreadsheet_id ;;
  let sheets := Py.dict_get (sheets spreadsheet) [] in
  print "Available sheets:" ;;
  for_each sheets (fun s =>
    let title := title (properties s) in
    print ("- " ++ title)%string ;;
    if Py.str_in TARGET title
    then print ("  ^^^ Found matching sheet: " ++ title)%string
    else ret tt) ;;
  try_except
    (result <- sheet_values_get_execute service spreadsheet_id
                 (range_arg sheet_name range_name) ;;
     report (isprintable w) sheet_name range_name result)
    (fun e => print ("Error accessing sheet data: " ++ exn_str e)%string).

(** Lines 68 to 75: [for ... if ...: SHEET_NAME = title; print; break]
    with its [else] clause, which runs when the loop ends without
    [break].  The result is the value of [SHEET_NAME] after the loop. *)
Fixpoint find_sheet_name (sheets : list Sheet) (SHEET_NAME : string)
  : M string :=
  match sheets with
  | [] =>
      print (Py.nl ++ "Warning: Could not find sheet with 'PROMT Temp: UX' in the name. Using default name.")%string ;;
      ret SHEET_NAME
  | s :: rest =>
      let title := title (properties s) in
      if Py.str_in TARGET title then
        let SHEET_NAME := title in
        print (Py.nl ++ "Found matching sheet: " ++ SHEET_NAME)%string ;;
        ret SHEET_NAME
      else find_sheet_name rest SHEET_NAME
  end.

(** The [if __name__ == '__main__':] block.  A result [Raise e] is an
    exception nothing caught: the interpreter writes its traceback to
    standard error and the process ends. *)
Definition main : M unit :=
  creds <- Credentials_from_service_account_file SERVICE_ACCOUNT_FILE SCOPES ;;
  let service := build "sheets" "v4" creds in
  spreadsheet <- sheet_get_execute service SPREADSHEET_ID ;;
  SHEET_NAME <- find_sheet_name (Py.dict_get (sheets spreadsheet) []) SHEET_NAME ;;
  try_except
    (get_sheet_data SPREADSHEET_ID SHEET_NAME RANGE_NAME)
    (fun e =>
       print ("Error: " ++ exn_str e)%string ;;
       print (Py.nl ++ "Trying with a different sheet name variation...")%string ;;
       let SHEET_NAME := SHEET_NAME_VARIATION in
       get_sheet_data SPREADSHEET_ID SHEET_NAME RANGE_NAME).

End Script.

(** ** Observations on a run *)

Definition is_values_get (c : Call) : bool :=
  match c with
  | CallValuesGet _ _ => true
  | _ => false
  end.

Definition is_get (c : Call) : bool :=
  match c with
  | CallGet _ => true
  | _ => false
  end.

Definition is_auth (c : Call) : bool :=
  match c with
  | CallAuth _ _ => true
  | _ => false
  end.

(** How many range fetches, worksheet listings and authentications a
    sequence of calls holds. *)
Definition fetch_attempts (cs : list Call) : nat :=
  List.length (filter is_values_get cs).

Definition listing_attempts (cs : list Call) : nat :=
  List.length (filter is_get cs).

Definition auth_attempts (cs : list Call) : nat :=
  List.length (filter is_auth cs).

(** Worksheets with the given titles. *)
Definition sheets_of (ts : list string) : list Sheet :=
  map (fun t => mkSheet (mkSheetProperties t)) ts.

(** What the listing loop of [get_sheet_data] prints for each worksheet. *)
Definition listing_lines (ss : list Sheet) : list string :=
  flat_map (fun s =>
    let title := title (properties s) in
    if Py.str_in TARGET title
    then [("- " ++ title)%string; ("  ^^^ Found matching sheet: " ++ title)%string]
    else [("- " ++ title)%string]) ss.

(** What [report] prints, as a list of lines. *)
Definition report_lines (isprintable : N -> bool)
  (sheet_name range_name : string) (result : ValueRange) : list string :=
  match Py.dict_get (values result) [] with
  | [] => ["No data found in the specified range."]
  | row :: rows =>
      (Py.nl ++ "Data from " ++ sheet_name ++ "!" ++ range_name ++ ":")%string
      :: map (Py.repr_list isprintable) (row :: rows)
  end.

(** The first worksheet, in listed order, whose title passes the test of
    the loop. *)
Definition first_match (ss : list Sheet) : option Sheet :=
  find (fun s => Py.str_in TARGET (title (properties s))) ss.

(** The value of [SHEET_NAME] after the loop of lines 68 to 75, and the
    line the loop prints. *)
Definition resolved_name (ss : list Sheet) (default : string) : string :=
  match first_match ss with
  | Some s => title (properties s)
  | None => default
  end.

Definition warning_line : string :=
  (Py.nl ++ "Warning: Could not find sheet with 'PROMT Temp: UX' in the name. Using default name.")%string.

Definition resolved_line (ss : list Sheet) : string :=
  match first_match ss with
  | Some s => (Py.nl ++ "Found matching sheet: " ++ title (properties s))%string
  | None => warning_line
  end.

(** The line the top-level handler prints before its second attempt. *)
Definition retry_notice : string :=
  (Py.nl ++ "Trying with a different sheet name variation...")%string.

(** The authentications among [cs] that the world answered with an
    exception, [cs] being the calls of a run from its [n]-th call on. *)
Fixpoint auth_failures_from (w : World) (n : nat) (cs : list Call) : nat :=
  match cs with
  | [] => 0
  | CallAuth file scopes :: rest =>
      match from_service_account_file w n file scopes with
      | Raise _ => S (auth_failures_from w (S n) rest)
      | Ok _ => auth_failures_from w (S n) rest
      end
  | _ :: rest => auth_failures_from w (S n) rest
  end.

Definition auth_failures (w : World) (cs : list Call) : nat :=
  auth_failures_from w 0 cs.

(** ** Sample worlds *)

Module Sample.

(** The character table of CPython 3.11, which follows Unicode 14.0.0:
    the ranges of code points from U+0080 up of which [str.isprintable]
    does not hold (separators other than the space, control and format
    characters, surrogates, private-use and unassigned code points). *)
Definition not_printable : list (N * N) :=
  [(128, 160); (173, 173); (888, 889); (896, 899); (907, 907); (909, 909);
   (930, 930); (1328, 1328); (1367, 1368); (1419, 1420); (1424, 1424);
   (1480, 1487); (1515, 1518); (1525, 1541); (1564, 1564); (1757, 1757);
   (1806, 1807); (1867, 1868); (1970, 1983); (2043, 2044); (2094, 2095);
   (2111, 2111); (2140, 2141); (2143, 2143); (2155, 2159); (2191, 2199);
   (2274, 2274); (2436, 2436); (2445, 2446); (2449, 2450); (2473, 2473);
   (2481, 2481); (2483, 2485); (2490, 2491); (2501, 2502); (2505, 2506);
   (2511, 2518); (2520, 2523); (2526, 2526); (2532, 2533); (2559, 2560);
   (2564, 2564); (2571, 2574); (2577, 2578); (2601, 2601); (2609, 2609);
   (2612, 2612); (2615, 2615); (2618, 2619); (2621, 2621); (2627, 2630);
   (2633, 2634); (2638, 2640); (2642, 2648); (2653, 2653); (2655, 2661);
   (2679, 2688); (2692, 2692); (2702, 2702); (2706, 2706); (2729, 2729);
   (2737, 2737); (2740, 2740); (2746, 2747); (2758, 2758); (2762, 2762);
   (2766, 2767); (2769, 2783); (2788, 2789); (2802, 2808); (2816, 2816);
   (2820, 2820); (2829, 2830); (2833, 2834); (2857, 2857); (2865, 2865);
   (2868, 2868); (2874, 2875); (2885, 2886); (2889, 2890); (2894, 2900);
   (2904, 2907); (2910, 2910); (2916, 2917); (2936, 2945); (2948, 2948);
   (2955, 2957); (2961, 2961); (2966, 2968); (2971, 2971); (2973, 2973);
   (2976, 2978); (2981, 2983); (2987, 2989); (3002, 3005); (3011, 3013);
   (3017, 3017); (3022, 3023); (3025, 3030); (3032, 3045); (3067, 3071);
   (3085, 3085); (3089, 3089); (3113, 3113); (3130, 3131); (3141, 3141);
   (3145, 3145); (3150, 3156); (3159, 3159); (3163, 3164); (3166, 3167);
   (3172, 3173); (3184, 3190); (3213, 3213); (3217, 3217); (3241, 3241);
   (3252, 3252); (3258, 3259); (3269, 3269); (3273, 3273); (3278, 3284);
   (3287, 3292); (3295, 3295); (3300, 3301); (3312, 3312); (3315, 3327);
   (3341, 3341); (3345, 3345); (3397, 3397); (3401, 3401); (3408, 3411);
   (3428, 3429); (3456, 3456); (3460, 3460); (3479, 3481); (3506, 3506);
   (3516, 3516); (3518, 3519); (3527, 3529); (3531, 3534); (3541, 3541);
   (3543, 3543); (3552, 3557); (3568, 3569); (3573, 3584); (3643, 3646);
   (3676, 3712); (3715, 3715); (3717, 3717); (3723, 3723); (3748, 3748);
   (3750, 3750); (3774, 3775); (3781, 3781); (3783, 3783); (3790, 3791);
   (3802, 3803); (3808, 3839); (3912, 3912); (3949, 3952); (3992, 3992);
   (4029, 4029); (4045, 4045); (4059, 4095); (4294, 4294); (4296, 4300);
   (4302, 4303); (4681, 4681); (4686, 4687); (4695, 4695); (4697, 4697);
   (4702, 4703); (4745, 4745); (4750, 4751); (4785, 4785); (4790, 4791);
   (4799, 4799); (4801, 4801); (4806, 4807); (4823, 4823); (4881, 4881);
   (4886, 4887); (4955, 4956); (4989, 4991); (5018, 5023); (5110, 5111);
   (5118, 5119); (5760, 5760); (5789, 5791); (5881, 5887); (5910, 5918);
   (5943, 5951); (5972, 5983); (5997, 5997); (6001, 6001); (6004, 6015);
   (6110, 6111); (6122, 6127); (6138, 6143); (6158, 6158); (6170, 6175);
   (6265, 6271); (6315, 6319); (6390, 6399); (6431, 6431); (6444, 6447);
   (6460, 6463); (6465, 6467); (6510, 6511); (6517, 6527); (6572, 6575);
   (6602, 6607); (6619, 6621); (6684, 6685); (6751, 6751); (6781, 6782);
   (6794, 6799); (6810, 6815); (6830, 6831); (6863, 6911); (6989, 6991);
   (7039, 7039); (7156, 7163); (7224, 7226); (7242, 7244); (7305, 7311);
   (7355, 7356); (7368, 7375); (7419, 7423); (7958, 7959); (7966, 7967);
   (8006, 8007); (8014, 8015); (8024, 8024); (8026, 8026); (8028, 8028);
   (8030, 8030); (8062, 8063); (8117, 8117); (8133, 8133); (8148, 8149);
   (8156, 8156); (8176, 8177); (8181, 8181); (8191, 8207); (8232, 8239);
   (8287, 8303); (8306, 8307); (8335, 8335); (8349, 8351); (8385, 8399);
   (8433, 8447); (8588, 8591); (9255, 9279); (9291, 9311); (11124, 11125);
   (11158, 11158); (11508, 11512); (11558, 11558); (11560, 11564);
   (11566, 11567); (11624, 11630); (11633, 11646); (11671, 11679);
   (11687, 11687); (11695, 11695); (11703, 11703); (11711, 11711);
   (11719, 11719); (11727, 11727); (11735, 11735); (11743, 11743);
   (11870, 11903); (11930, 11930); (12020, 12031); (12246, 12271);
   (12284, 12288); (12352, 12352); (12439, 12440); (12544, 12548);
   (12592, 12592); (12687, 12687); (12772, 12783); (12831, 12831);
   (42125, 42127); (42183, 42191); (42540, 42559); (42744, 42751);
   (42955, 42959); (42962, 42962); (42964, 42964); (42970, 42993);
   (43053, 43055); (43066, 43071); (43128, 43135); (43206, 43213);
   (43226, 43231); (43348, 43358); (43389, 43391); (43470, 43470);
   (43482, 43485); (43519, 43519); (43575, 43583); (43598, 43599);
   (43610, 43611); (43715, 43738); (43767, 43776); (43783, 43784);
   (43791, 43792); (43799, 43807); (43815, 43815); (43823, 43823);
   (43884, 43887); (44014, 44015); (44026, 44031); (55204, 55215);
   (55239, 55242); (55292, 63743); (64110, 64111); (64218, 64255);
   (64263, 64274); (64280, 64284); (64311, 64311); (64317, 64317);
   (64319, 64319); (64322, 64322); (64325, 64325); (64451, 64466);
   (64912, 64913); (64968, 64974); (64976, 65007); (65050, 65055);
   (65107, 65107); (65127, 65127); (65132, 65135); (65141, 65141);
   (65277, 65280); (65471, 65473); (65480, 65481); (65488, 65489);
   (65496, 65497); (65501, 65503); (65511, 65511); (65519, 65531);
   (65534, 65535); (65548, 65548); (65575, 65575); (65595, 65595);
   (65598, 65598); (65614, 65615); (65630, 65663); (65787, 65791);
   (65795, 65798); (65844, 65846); (65935, 65935); (65949, 65951);
   (65953, 65999); (66046, 66175); (66205, 66207); (66257, 66271);
   (66300, 66303); (66340, 66348); (66379, 66383); (66427, 66431);
   (66462, 66462); (66500, 66503); (66518, 66559); (66718, 66719);
   (66730, 66735); (66772, 66775); (66812, 66815); (66856, 66863);
   (66916, 66926); (66939, 66939); (66955, 66955); (66963, 66963);
   (66966, 66966); (66978, 66978); (66994, 66994); (67002, 67002);
   (67005, 67071); (67383, 67391); (67414, 67423); (67432, 67455);
   (67462, 67462); (67505, 67505); (67515, 67583); (67590, 67591);
   (67593, 67593); (67638, 67638); (67641, 67643); (67645, 67646);
   (67670, 67670); (67743, 67750); (67760, 67807); (67827, 67827);
   (67830, 67834); (67868, 67870); (67898, 67902); (67904, 67967);
   (68024, 68027); (68048, 68049); (68100, 68100); (68103, 68107);
   (68116, 68116); (68120, 68120); (68150, 68151); (68155, 68158);
   (68169, 68175); (68185, 68191); (68256, 68287); (68327, 68330);
   (68343, 68351); (68406, 68408); (68438, 68439); (68467, 68471);
   (68498, 68504); (68509, 68520); (68528, 68607); (68681, 68735);
   (68787, 68799); (68851, 68857); (68904, 68911); (68922, 69215);
   (69247, 69247); (69290, 69290); (69294, 69295); (69298, 69375);
   (69416, 69423); (69466, 69487); (69514, 69551); (69580, 69599);
   (69623, 69631); (69710, 69713); (69750, 69758); (69821, 69821);
   (69827, 69839); (69865, 69871); (69882, 69887); (69941, 69941);
   (69960, 69967); (70007, 70015); (70112, 70112); (70133, 70143);
   (70162, 70162); (70207, 70271); (70279, 70279); (70281, 70281);
   (70286, 70286); (70302, 70302); (70314, 70319); (70379, 70383);
   (70394, 70399); (70404, 70404); (70413, 70414); (70417, 70418);
   (70441, 70441); (70449, 70449); (70452, 70452); (70458, 70458);
   (70469, 70470); (70473, 70474); (70478, 70479); (70481, 70486);
   (70488, 70492); (70500, 70501); (70509, 70511); (70517, 70655);
   (70748, 70748); (70754, 70783); (70856, 70863); (70874, 71039);
   (71094, 71095); (71134, 71167); (71237, 71247); (71258, 71263);
   (71277, 71295); (71354, 71359); (71370, 71423); (71451, 71452);
   (71468, 71471); (71495, 71679); (71740, 71839); (71923, 71934);
   (71943, 71944); (71946, 71947); (71956, 71956); (71959, 71959);
   (71990, 71990); (71993, 71994); (72007, 72015); (72026, 72095);
   (72104, 72105); (72152, 72153); (72165, 72191); (72264, 72271);
   (72355, 72367); (72441, 72703); (72713, 72713); (72759, 72759);
   (72774, 72783); (72813, 72815); (72848, 72849); (72872, 72872);
   (72887, 72959); (72967, 72967); (72970, 72970); (73015, 73017);
   (73019, 73019); (73022, 73022); (73032, 73039); (73050, 73055);
   (73062, 73062); (73065, 73065); (73103, 73103); (73106, 73106);
   (73113, 73119); (73130, 73439); (73465, 73647); (73649, 73663);
   (73714, 73726); (74650, 74751); (74863, 74863); (74869, 74879);
   (75076, 77711); (77811, 77823); (78895, 82943); (83527, 92159);
   (92729, 92735); (92767, 92767); (92778, 92781); (92863, 92863);
   (92874, 92879); (92910, 92911); (92918, 92927); (92998, 93007);
   (93018, 93018); (93026, 93026); (93048, 93052); (93072, 93759);
   (93851, 93951); (94027, 94030); (94088, 94094); (94112, 94175);
   (94181, 94191); (94194, 94207); (100344, 100351); (101590, 101631);
   (101641, 110575); (110580, 110580); (110588, 110588); (110591, 110591);
   (110883, 110927); (110931, 110947); (110952, 110959); (111356, 113663);
   (113771, 113775); (113789, 113791); (113801, 113807); (113818, 113819);
   (113824, 118527); (118574, 118575); (118599, 118607); (118724, 118783);
   (119030, 119039); (119079, 119080); (119155, 119162); (119275, 119295);
   (119366, 119519); (119540, 119551); (119639, 119647); (119673, 119807);
   (119893, 119893); (119965, 119965); (119968, 119969); (119971, 119972);
   (119975, 119976); (119981, 119981); (119994, 119994); (119996, 119996);
   (120004, 120004); (120070, 120070); (120075, 120076); (120085, 120085);
   (120093, 120093); (120122, 120122); (120127, 120127); (120133, 120133);
   (120135, 120137); (120145, 120145); (120486, 120487); (120780, 120781);
   (121484, 121498); (121504, 121504); (121520, 122623); (122655, 122879);
   (122887, 122887); (122905, 122906); (122914, 122914); (122917, 122917);
   (122923, 123135); (123181, 123183); (123198, 123199); (123210, 123213);
   (123216, 123535); (123567, 123583); (123642, 123646); (123648, 124895);
   (124903, 124903); (124908, 124908); (124911, 124911); (124927, 124927);
   (125125, 125126); (125143, 125183); (125260, 125263); (125274, 125277);
   (125280, 126064); (126133, 126208); (126270, 126463); (126468, 126468);
   (126496, 126496); (126499, 126499); (126501, 126502); (126504, 126504);
   (126515, 126515); (126520, 126520); (126522, 126522); (126524, 126529);
   (126531, 126534); (126536, 126536); (126538, 126538); (126540, 126540);
   (126544, 126544); (126547, 126547); (126549, 126550); (126552, 126552);
   (126554, 126554); (126556, 126556); (126558, 126558); (126560, 126560);
   (126563, 126563); (126565, 126566); (126571, 126571); (126579, 126579);
   (126584, 126584); (126589, 126589); (126591, 126591); (126602, 126602);
   (126620, 126624); (126628, 126628); (126634, 126634); (126652, 126703);
   (126706, 126975); (127020, 127023); (127124, 127135); (127151, 127152);
   (127168, 127168); (127184, 127184); (127222, 127231); (127406, 127461);
   (127491, 127503); (127548, 127551); (127561, 127567); (127570, 127583);
   (127590, 127743); (128728, 128732); (128749, 128751); (128765, 128767);
   (128884, 128895); (128985, 128991); (129004, 129007); (129009, 129023);
   (129036, 129039); (129096, 129103); (129114, 129119); (129160, 129167);
   (129198, 129199); (129202, 129279); (129620, 129631); (129646, 129647);
   (129653, 129655); (129661, 129663); (129671, 129679); (129709, 129711);
   (129723, 129727); (129734, 129743); (129754, 129759); (129768, 129775);
   (129783, 129791); (129939, 129939); (129995, 130031); (130042, 131071);
   (173792, 173823); (177977, 177983); (178206, 178207); (183970, 183983);
   (191457, 194559); (195102, 196607); (201547, 917759); (918000, 1114111)]%N.

Definition unicode_14 (cp : N) : bool :=
  negb (existsb (fun range => N.leb (fst range) cp && N.leb cp (snd range))
          not_printable).

Definition metadata : Spreadsheet :=
  mkSpreadsheet
    (Some (sheets_of ["Sheet1"; "PROMT Temp: UX Researcher"; "Other"])).

Definition rows_ab_cd : ValueRange :=
  mkValueRange (Some [["a"; "b"]; ["c"; "d"]]).

Definition no_such_range : exn :=
  mkExn RemoteError "Unable to parse range".

Definition no_key_file : exn :=
  mkExn AuthenticationError "No such file or directory".

(** Every call succeeds. *)
Definition all_good : World :=
  mkWorld (fun _ file scopes => Ok (mkCredentials file scopes))
          (fun _ _ _ => Ok metadata)
          (fun _ _ _ _ => Ok rows_ab_cd)
          unicode_14.

(** The values request is refused, everything else succeeds. *)
Definition fetch_refused : World :=
  mkWorld (fun _ file scopes => Ok (mkCredentials file scopes))
          (fun _ _ _ => Ok metadata)
          (fun _ _ _ _ => Raise no_such_range)
          unicode_14.

(** The key file cannot be read at the [k]-th external call of the run
    and can at every other. *)
Definition key_file_missing_at (k : nat) : World :=
  mkWorld (fun n file scopes =>
             if Nat.eqb n k then Raise no_key_file
             else Ok (mkCredentials file scopes))
          (fun _ _ _ => Ok metadata)
          (fun _ _ _ _ => Ok rows_ab_cd)
          unicode_14.

(** The key file can be read by the top-level code only. *)
Definition key_file_read_once : World :=
  mkWorld (fun n file scopes =>
             if Nat.eqb n 0 then Ok (mkCredentials file scopes)
             else Raise no_key_file)
          (fun _ _ _ => Ok metadata)
          (fun _ _ _ _ => Ok rows_ab_cd)
          unicode_14.

End Sample.

(** ** Further observations *)

(** The kind of an external call, without its arguments. *)
Inductive CallKind : Type :=
| KAuth
| KGet
| KValuesGet.

Definition kind_of (c : Call) : CallKind :=
  match c with
  | CallAuth _ _ => KAuth
  | CallGet _ => KGet
  | CallValuesGet _ _ => KValuesGet
  end.

(** The sequences of external calls a run can make: the top-level
    authentication and listing, then the calls of [get_sheet_data], which
    stop at the first failure, and after a failure of the first call those
    of the second. *)
Definition run_shapes : list (list CallKind) :=
  [ [KAuth];
    [KAuth; KGet];
    [KAuth; KGet; KAuth; KGet; KValuesGet];
    [KAuth; KGet; KAuth; KAuth];
    [KAuth; KGet; KAuth; KAuth; KGet];
    [KAuth; KGet; KAuth; KAuth; KGet; KValuesGet];
    [KAuth; KGet; KAuth; KGet; KAuth];
    [KAuth; KGet; KAuth; KGet; KAuth; KGet];
    [KAuth; KGet; KAuth; KGet; KAuth; KGet; KValuesGet] ].

(** Every character of [s] passes the test [p]. *)
Fixpoint all_chars (p : ascii -> bool) (s : string) : bool :=
  match s with
  | EmptyString => true
  | String c rest => p c && all_chars p rest
  end.

(** Control characters of ASCII below the space: tab, newline, carriage
    return and the like. *)
Definition is_control (c : ascii) : bool :=
  Nat.ltb (nat_of_ascii c) 32.

(** The printable characters of ASCII, from the space to the tilde, but for
    the single quote and the backslash. *)
Definition is_plain (c : ascii) : bool :=
  negb (Ascii.eqb c "'"%char) && negb (Ascii.eqb c "\"%char)
  && negb (is_control c) && Nat.ltb (nat_of_ascii c) 127.

(** Whether the title of a worksheet passes the test of both loops. *)
Definition title_matches (s : Sheet) : bool :=
  Py.str_in TARGET (title (properties s)).

(** ** More sample worlds *)

Module Outage.

Definition not_found : exn :=
  mkExn RemoteError "Requested entity was not found.".

(** The listing is refused from the [k]-th external call of the run on;
    everything else succeeds. *)
Definition listing_refused_from (k : nat) : World :=
  mkWorld (fun _ file scopes => Ok (mkCredentials file scopes))
          (fun n _ _ => if Nat.leb k n then Raise not_found
                        else Ok Sample.metadata)
          (fun _ _ _ _ => Ok Sample.rows_ab_cd)
          Sample.unicode_14.

(** The first listing shows a worksheet titled [PROMT Temp: UX Designer]
    only; the key file cannot be read at the third call of the run. *)
Definition other_match_then_no_key : World :=
  mkWorld (fun n file scopes =>
             if Nat.eqb n 2 then Raise Sample.no_key_file
             else Ok (mkCredentials file scopes))
          (fun _ _ _ =>
             Ok (mkSpreadsheet (Some (sheets_of ["PROMT Temp: UX Designer"]))))
          (fun _ _ _ _ => Ok Sample.rows_ab_cd)
          Sample.unicode_14.

End Outage.

(** ** Characters beyond ASCII, as their UTF-8 bytes *)

Module Chars.

(** U+00A0, bytes C2 A0 *)
Definition no_break_space : string :=
  String "194"%char (String "160"%char EmptyString).

(** U+0085, bytes C2 85 *)
Definition next_line : string :=
  String "194"%char (String "133"%char EmptyString).

(** U+2028, bytes E2 80 A8 *)
Definition line_separator : string :=
  String "226"%char (String "128"%char (String "168"%char EmptyString)).

(** U+200B, bytes E2 80 8B *)
Definition zero_width_space : string :=
  String "226"%char (String "128"%char (String "139"%char EmptyString)).

(** U+00E9, bytes C3 A9 *)
Definition e_acute : string :=
  String "195"%char (String "169"%char EmptyString).

(** U+1F600, bytes F0 9F 98 80 *)
Definition grinning_face : string :=
  String "240"%char
    (String "159"%char (String "152"%char (String "128"%char EmptyString))).

(** U+10FFFF, bytes F4 8F BF BF *)
Definition last_code_point : string :=
  String "244"%char
    (String "143"%char (String "191"%char (String "191"%char EmptyString))).

End Chars.

(** * Properties *)

(** ** Substring containment *)

Lemma prefix_iff (needle hay : string) :
  String.prefix needle hay = true <->
  exists post : string, hay = (needle ++ post)%string.
Proof.
  revert hay; induction needle as [|a needle IH]; intros hay.
  - destruct hay; simpl; split; intros; eauto.
  - destruct hay as [|b hay]; simpl.
    + split; [discriminate | intros [post H]; discriminate].
    + destruct (ascii_dec a b) as [->|Hab].
      * rewrite IH. split; intros [post H]; exists post.
        -- now rewrite H.
        -- now inversion H.
      * split; [discriminate | intros [post H]; inversion H; congruence].
Qed.

Lemma str_in_unfold (needle hay : string) :
  Py.str_in needle hay
  = if String.prefix needle hay then true
    else match hay with
         | EmptyString => false
         | String _ rest => Py.str_in needle rest
         end.
Proof. destruct hay; reflexivity. Qed.

Lemma str_in_iff (needle hay : string) :
  Py.str_in needle hay = true <-> Py.Substring needle hay.
Proof.
  unfold Py.Substring.
  induction hay as [|c hay IH]; rewrite str_in_unfold.
  - destruct (String.prefix needle "") eqn:Hp.
    + split; [intros _ | reflexivity].
      apply prefix_iff in Hp. destruct Hp as [post H].
      exists "", post. exact H.
    + split; [discriminate |].
      intros (pre & post & H).
      destruct pre; [|discriminate]. simpl in H.
      assert (Ht : String.prefix needle "" = true)
        by (apply prefix_iff; eauto).
      congruence.
  - destruct (String.prefix needle (String c hay)) eqn:Hp.
    + split; [intros _ | reflexivity].
      apply prefix_iff in Hp. destruct Hp as [post H].
      exists "", post. exact H.
    + rewrite IH. split.
      * intros (pre & post & H). exists (String c pre), post.
        simpl. now rewrite H.
      * intros (pre & post & H). destruct pre as [|d pre].
        -- simpl in H.
           assert (Ht : String.prefix needle (String c hay) = true)
             by (apply prefix_iff; eauto).
           congruence.
        -- simpl in H. inversion H. eauto.
Qed.

Lemma str_in_false_iff (needle hay : string) :
  Py.str_in needle hay = false <-> ~ Py.Substring needle hay.
Proof.
  rewrite <- str_in_iff. destruct (Py.str_in needle hay); split; intros H;
    try reflexivity; try discriminate; try (intros C; discriminate).
  exfalso; apply H; reflexivity.
Qed.

(** ** Printing loops *)

Lemma for_each_prints {A : Type} (lines : A -> list string)
  (body : A -> M unit) (xs : list A) :
  (forall x st, body x st = (Ok tt, mkState (stdout st ++ lines x) (calls st))) ->
  forall st,
    for_each xs body st
    = (Ok tt, mkState (stdout st ++ flat_map lines xs) (calls st)).
Proof.
  intros Hbody. induction xs as [|x xs IH]; intros st; simpl.
  - unfold ret. rewrite app_nil_r. now destruct st.
  - unfold bind. rewrite Hbody, IH. simpl. now rewrite <- app_assoc.
Qed.

Lemma snoc_app {A : Type} (l : list A) (x : A) (m : list A) :
  (l ++ [x]) ++ m = l ++ x :: m.
Proof. now rewrite <- app_assoc. Qed.

Lemma flat_map_singleton {A B : Type} (f : A -> B) (xs : list A) :
  flat_map (fun x => [f x]) xs = map f xs.
Proof.
  induction xs as [|x xs IH]; simpl; [reflexivity | now rewrite IH].
Qed.

Lemma report_run (table : N -> bool) (sheet_name range_name : string)
  (r : ValueRange) (st : State) :
  report table sheet_name range_name r st
  = (Ok tt,
     mkState (stdout st ++ report_lines table sheet_name range_name r)
             (calls st)).
Proof.
  unfold report, report_lines.
  destruct (Py.dict_get (values r) []) as [|row rows]; simpl.
  - reflexivity.
  - unfold bind, print; simpl.
    rewrite (for_each_prints (fun row => [Py.repr_list table row]))
      by reflexivity.
    rewrite flat_map_singleton. cbn [stdout calls].
    now rewrite !snoc_app.
Qed.

Lemma listing_run (ss : list Sheet) (st : State) :
  for_each ss (fun s =>
      let title := title (properties s) in
      print ("- " ++ title)%string ;;
      if Py.str_in TARGET title
      then print ("  ^^^ Found matching sheet: " ++ title)%string
      else ret tt) st
  = (Ok tt, mkState (stdout st ++ listing_lines ss) (calls st)).
Proof.
  unfold listing_lines. apply for_each_prints.
  intros s st'. unfold bind, print, ret; simpl.
  destruct (Py.str_in TARGET (title (properties s))); cbn [stdout calls].
  - now rewrite snoc_app.
  - reflexivity.
Qed.

Lemma find_sheet_name_run (ss : list Sheet) (default : string) (st : State) :
  find_sheet_name ss default st
  = (Ok (resolved_name ss default),
     mkState (stdout st ++ [resolved_line ss]) (calls st)).
Proof.
  unfold resolved_name, resolved_line, first_match.
  induction ss as [|s ss IH]; simpl.
  - reflexivity.
  - destruct (Py.str_in TARGET (title (properties s))).
    + reflexivity.
    + exact IH.
Qed.

(** ** One call of [get_sheet_data], case by case *)

Section Helper.

Variable w : World.

Lemma length_snoc {A : Type} (l : list A) (x : A) :
  List.length (l ++ [x]) = S (List.length l).
Proof. rewrite length_app; simpl; lia. Qed.

Lemma get_sheet_data_run (sid name rng : string) (st : State) :
  get_sheet_data w sid name rng st
  = let n := List.length (calls st) in
    match from_service_account_file w n SERVICE_ACCOUNT_FILE SCOPES with
    | Raise e => (Raise e, mkState (stdout st) (calls st ++ [CallAuth SERVICE_ACCOUNT_FILE SCOPES]))
    | Ok creds =>
        let service := build "sheets" "v4" creds in
        match spreadsheets_get_execute w (S n) service sid with
        | Raise e =>
            (Raise e,
             mkState (stdout st)
               (calls st ++ [CallAuth SERVICE_ACCOUNT_FILE SCOPES; CallGet sid]))
        | Ok sp =>
            let out :=
              stdout st ++ "Available sheets:"
              :: listing_lines (Py.dict_get (sheets sp) []) in
            let cs :=
              calls st ++ [CallAuth SERVICE_ACCOUNT_FILE SCOPES; CallGet sid;
                           CallValuesGet sid (range_arg name rng)] in
            match values_get_execute w (S (S n)) service sid
                    (range_arg name rng) with
            | Raise e =>
                (Ok tt,
                 mkState
                   (out ++ [("Error accessing sheet data: " ++ exn_str e)%string])
                   cs)
            | Ok r =>
                (Ok tt,
                 mkState (out ++ report_lines (isprintable w) name rng r) cs)
            end
        end
    end.
Proof.
  unfold get_sheet_data, bind at 1, Credentials_from_service_account_file.
  cbn [stdout calls].
  destruct (from_service_account_file w _ _ _) as [creds|e]; [|reflexivity].
  unfold bind at 1, sheet_get_execute. cbn [stdout calls].
  rewrite length_snoc.
  destruct (spreadsheets_get_execute w _ _ _) as [sp|e];
    [|now rewrite snoc_app].
  unfold bind at 1, print at 1. cbn [stdout calls].
  unfold bind at 1. rewrite listing_run. cbn [stdout calls].
  unfold try_except, bind at 1, sheet_values_get_execute.
  cbn [stdout calls]. rewrite length_snoc, length_snoc.
  rewrite !snoc_app.
  destruct (values_get_execute w _ _ _ _) as [r|e].
  - rewrite report_run. cbn [stdout calls]. reflexivity.
  - reflexivity.
Qed.

End Helper.

(** A call of [get_sheet_data] whose authentication raises does nothing
    else: the exception leaves the call at once. *)
Lemma get_sheet_data_auth_failure
  (w : World) (sid name rng : string) (st : State) (e : exn) :
  from_service_account_file w (List.length (calls st))
    SERVICE_ACCOUNT_FILE SCOPES = Raise e ->
  get_sheet_data w sid name rng st
  = (Raise e,
     mkState (stdout st) (calls st ++ [CallAuth SERVICE_ACCOUNT_FILE SCOPES])).
Proof.
  intros Hauth. rewrite get_sheet_data_run. cbv zeta. now rewrite Hauth.
Qed.

(** A call of [get_sheet_data] whose listing raises. *)
Lemma get_sheet_data_listing_failure_run
  (w : World) (sid name rng : string) (st : State)
  (creds : Credentials) (e : exn) :
  from_service_account_file w (List.length (calls st))
    SERVICE_ACCOUNT_FILE SCOPES = Ok creds ->
  spreadsheets_get_execute w (S (List.length (calls st)))
    (build "sheets" "v4" creds) sid = Raise e ->
  get_sheet_data w sid name rng st
  = (Raise e,
     mkState (stdout st)
       (calls st ++ [CallAuth SERVICE_ACCOUNT_FILE SCOPES; CallGet sid])).
Proof.
  intros Hauth Hget. rewrite get_sheet_data_run. cbv zeta.
  now rewrite Hauth, Hget.
Qed.

(** ** The whole run, case by case *)

Section Run.

Variable w : World.

Lemma main_run :
  main w init
  = match from_service_account_file w 0 SERVICE_ACCOUNT_FILE SCOPES with
    | Raise e => (Raise e, mkState [] [CallAuth SERVICE_ACCOUNT_FILE SCOPES])
    | Ok creds =>
        match spreadsheets_get_execute w 1 (build "sheets" "v4" creds)
                SPREADSHEET_ID with
        | Raise e =>
            (Raise e,
             mkState [] [CallAuth SERVICE_ACCOUNT_FILE SCOPES;
                         CallGet SPREADSHEET_ID])
        | Ok sp =>
            let ss := Py.dict_get (sheets sp) [] in
            let st1 :=
              mkState [resolved_line ss]
                [CallAuth SERVICE_ACCOUNT_FILE SCOPES; CallGet SPREADSHEET_ID] in
            match get_sheet_data w SPREADSHEET_ID (resolved_name ss SHEET_NAME)
                    RANGE_NAME st1 with
            | (Ok a, st2) => (Ok a, st2)
            | (Raise e, st2) =>
                get_sheet_data w SPREADSHEET_ID SHEET_NAME_VARIATION RANGE_NAME
                  (mkState
                     (stdout st2 ++ [("Error: " ++ exn_str e)%string; retry_notice])
                     (calls st2))
            end
        end
    end.
Proof.
  unfold main, bind at 1, Credentials_from_service_account_file.
  cbn [stdout calls init List.length app].
  destruct (from_service_account_file w 0 _ _) as [creds|e]; [|reflexivity].
  unfold bind at 1, sheet_get_execute. cbn [stdout calls List.length app].
  destruct (spreadsheets_get_execute w 1 _ _) as [sp|e]; [|reflexivity].
  unfold bind at 1. rewrite find_sheet_name_run.
  cbn [stdout calls app]. unfold try_except.
  destruct (get_sheet_data w _ _ _ _) as [[a|e] st2]; [reflexivity|].
  unfold bind at 1, print at 1. cbn [stdout calls].
  unfold bind at 1, print at 1. cbn [stdout calls].
  now rewrite snoc_app.
Qed.

(** A call of [get_sheet_data] makes at most one values request, and
    none when it raises. *)
Lemma get_sheet_data_fetches (sid name rng : string) (st : State) :
  let out := get_sheet_data w sid name rng st in
  match fst out with
  | Ok _ => fetch_attempts (calls (snd out)) = S (fetch_attempts (calls st))
  | Raise _ => fetch_attempts (calls (snd out)) = fetch_attempts (calls st)
  end.
Proof.
  cbv zeta. rewrite get_sheet_data_run. cbv zeta.
  unfold fetch_attempts.
  destruct (from_service_account_file w _ _ _) as [creds|e];
    cbn [fst snd calls].
  - destruct (spreadsheets_get_execute w _ _ _) as [sp|e];
      cbn [fst snd calls].
    + destruct (values_get_execute w _ _ _ _) as [r|e]; cbn [fst snd calls];
        rewrite filter_app, length_app; simpl; lia.
    + rewrite filter_app, length_app; simpl; lia.
  - rewrite filter_app, length_app; simpl; lia.
Qed.

(** No run makes a second values request. *)
Lemma main_fetches_at_most_once :
  fetch_attempts (calls (snd (main w init))) <= 1.
Proof.
  rewrite main_run.
  destruct (from_service_account_file w 0 _ _) as [creds|e];
    [|cbn; lia].
  destruct (spreadsheets_get_execute w 1 _ _) as [sp|e]; [|cbn; lia].
  cbv zeta.
  match goal with
  | |- context [get_sheet_data w ?i ?n ?r ?s] =>
      pose proof (get_sheet_data_fetches i n r s) as H1;
      destruct (get_sheet_data w i n r s) as [[a|e] st2]
  end; cbn [fst snd] in *.
  - rewrite H1. cbn. lia.
  - match goal with
    | |- context [get_sheet_data w ?i ?n ?r ?s] =>
        pose proof (get_sheet_data_fetches i n r s) as H2;
        destruct (get_sheet_data w i n r s) as [[a|e'] st3]
    end; cbn [fst snd calls] in *; rewrite H2, H1; cbn; lia.
Qed.

End Run.

(** ** The resolver *)

Lemma first_match_split (ss pre post : list Sheet) (s : Sheet) :
  ss = pre ++ s :: post ->
  (forall u, In u pre -> ~ Py.Substring TARGET (title (properties u))) ->
  Py.Substring TARGET (title (properties s)) ->
  first_match ss = Some s.
Proof.
  intros -> Hpre Hs. unfold first_match.
  induction pre as [|u pre IH]; simpl.
  - apply str_in_iff in Hs. now rewrite Hs.
  - assert (Hu : Py.str_in TARGET (title (properties u)) = false)
      by (apply str_in_false_iff, Hpre; now left).
    rewrite Hu. apply IH. intros v Hv. apply Hpre. now right.
Qed.

Lemma first_match_none (ss : list Sheet) :
  (forall u, In u ss -> ~ Py.Substring TARGET (title (properties u))) ->
  first_match ss = None.
Proof.
  intros Hall. unfold first_match.
  induction ss as [|u ss IH]; simpl; [reflexivity|].
  assert (Hu : Py.str_in TARGET (title (properties u)) = false)
    by (apply str_in_false_iff, Hall; now left).
  rewrite Hu. apply IH. intros v Hv. apply Hall. now right.
Qed.

(** C3.  For every list of worksheets, the loop of lines 68 to 75 leaves in
    [SHEET_NAME] the first title, in listed order, of which ['PROMT Temp: UX']
    is a substring (the title is some text, then exactly these characters,
    then some text) and prints the match notice; when it is a substring of
    no title, [SHEET_NAME] keeps its default value and the warning is
    printed.  Nothing is raised in either case. *)
Theorem resolver_selects_first_match (ss : list Sheet) (st : State) :
  (forall (pre post : list Sheet) (s : Sheet),
      ss = pre ++ s :: post ->
      (forall u, In u pre -> ~ Py.Substring TARGET (title (properties u))) ->
      Py.Substring TARGET (title (properties s)) ->
      find_sheet_name ss SHEET_NAME st
      = (Ok (title (properties s)),
         mkState
           (stdout st
            ++ [(Py.nl ++ "Found matching sheet: " ++ title (properties s))%string])
           (calls st)))
  /\ ((forall u, In u ss -> ~ Py.Substring TARGET (title (properties u))) ->
      find_sheet_name ss SHEET_NAME st
      = (Ok SHEET_NAME,
         mkState
           (stdout st
            ++ [(Py.nl ++ "Warning: Could not find sheet with 'PROMT Temp: UX' in the name. Using default name.")%string])
           (calls st))).
Proof.
  split.
  - intros pre post s Hss Hpre Hs.
    rewrite find_sheet_name_run. unfold resolved_name, resolved_line.
    now rewrite (first_match_split ss pre post s Hss Hpre Hs).
  - intros Hall.
    rewrite find_sheet_name_run. unfold resolved_name, resolved_line.
    now rewrite (first_match_none ss Hall).
Qed.

Lemma resolver_selects_first_match_witness :
  find_sheet_name
    (sheets_of ["Sheet1"; "PROMT Temp: UX Researcher"; "PROMT Temp: UX Designer"])
    SHEET_NAME init
  = (Ok "PROMT Temp: UX Researcher",
     mkState [(Py.nl ++ "Found matching sheet: PROMT Temp: UX Researcher")%string] [])
  /\ find_sheet_name (sheets_of ["Sheet1"; "promt temp: ux researcher"])
       SHEET_NAME init
     = (Ok SHEET_NAME, mkState [warning_line] []).
Proof.
  split.
  - apply (proj1 (resolver_selects_first_match _ init)
             (sheets_of ["Sheet1"])
             (sheets_of ["PROMT Temp: UX Designer"])
             (mkSheet (mkSheetProperties "PROMT Temp: UX Researcher"))).
    + reflexivity.
    + intros u [<-|[]]. apply str_in_false_iff. reflexivity.
    + apply str_in_iff. reflexivity.
  - apply (proj2 (resolver_selects_first_match _ init)).
    intros u [<-|[<-|[]]]; apply str_in_false_iff; reflexivity.
Defined.

(** C7.  With the worksheets titled [Sheet1], [PROMT Temp: UX Researcher]
    and [Other], in this order, the loop selects
    [PROMT Temp: UX Researcher]. *)
Theorem resolver_on_sample_titles (st : State) :
  TARGET = "PROMT Temp: UX"
  /\ find_sheet_name
       (sheets_of ["Sheet1"; "PROMT Temp: UX Researcher"; "Other"])
       SHEET_NAME st
     = (Ok "PROMT Temp: UX Researcher",
        mkState
          (stdout st
           ++ [(Py.nl ++ "Found matching sheet: PROMT Temp: UX Researcher")%string])
          (calls st)).
Proof. split; reflexivity. Qed.

(** ** The reporter *)

(** C6.  When the ['values'] list of the response is empty, the reporter
    prints the line [No data found in the specified range.] and nothing
    else; it makes no call and raises nothing. *)
Theorem report_empty_values
  (table : N -> bool) (sheet_name range_name : string) (st : State) :
  report table sheet_name range_name (mkValueRange (Some [])) st
  = (Ok tt,
     mkState (stdout st ++ ["No data found in the specified range."])
             (calls st)).
Proof. reflexivity. Qed.

(** C9.  A response without the ['values'] key is reported exactly as one
    whose ['values'] list is empty: the no-data line is printed and nothing
    is raised. *)
Theorem report_missing_values
  (table : N -> bool) (sheet_name range_name : string) (st : State) :
  report table sheet_name range_name (mkValueRange None) st
  = report table sheet_name range_name (mkValueRange (Some [])) st
  /\ report table sheet_name range_name (mkValueRange None) st
     = (Ok tt,
        mkState (stdout st ++ ["No data found in the specified range."])
                (calls st)).
Proof. split; reflexivity. Qed.

(** For a response with at least one row the reporter prints a heading and
    then one line per row, in the order of the response. *)
Lemma report_rows (table : N -> bool) (sheet_name range_name : string)
  (row : list string) (rows : list (list string)) (st : State) :
  report table sheet_name range_name (mkValueRange (Some (row :: rows))) st
  = (Ok tt,
     mkState
       (stdout st
        ++ (Py.nl ++ "Data from " ++ sheet_name ++ "!" ++ range_name ++ ":")%string
           :: map (Py.repr_list table) (row :: rows))
       (calls st)).
Proof. now rewrite report_run. Qed.

(** C5, as the code has it.  For the response with the rows [["a","b"]]
    and [["c","d"]] the reporter prints three things: the heading
    [Data from <sheet_name>!<range_name>:], preceded by an empty line, and
    then the two rows as Python writes a list of strings, in the order of
    the response. *)
Theorem report_two_rows
  (table : N -> bool) (sheet_name range_name : string) (st : State) :
  report table sheet_name range_name
    (mkValueRange (Some [["a"; "b"]; ["c"; "d"]])) st
  = (Ok tt,
     mkState
       (stdout st
        ++ [(Py.nl ++ "Data from " ++ sheet_name ++ "!" ++ range_name ++ ":")%string;
            "['a', 'b']";
            "['c', 'd']"])
       (calls st)).
Proof. now rewrite report_rows. Qed.

(** C5, as stated, fails: the two row lines are not all the reporter
    prints. *)
Lemma report_two_rows_not_alone :
  stdout (snd (report Sample.unicode_14 "PROMT Temp: UX Researcher" "A1:Z100"
                 (mkValueRange (Some [["a"; "b"]; ["c"; "d"]])) init))
  <> ["['a', 'b']"; "['c', 'd']"]
  /\ List.length
       (stdout (snd (report Sample.unicode_14 "PROMT Temp: UX Researcher"
                       "A1:Z100" (mkValueRange (Some [["a"; "b"]; ["c"; "d"]])) init)))
     = 3.
Proof. split; [discriminate | reflexivity]. Qed.

(** ** Failures of the values request *)

(** [get_sheet_data] raises only what its authentication or its listing
    raised. *)
Lemma get_sheet_data_raises_before_fetch
  (w : World) (sid name rng : string) (st : State) (e : exn) :
  fst (get_sheet_data w sid name rng st) = Raise e ->
  from_service_account_file w (List.length (calls st))
    SERVICE_ACCOUNT_FILE SCOPES = Raise e
  \/ exists creds : Credentials,
      from_service_account_file w (List.length (calls st))
        SERVICE_ACCOUNT_FILE SCOPES = Ok creds
      /\ spreadsheets_get_execute w (S (List.length (calls st)))
           (build "sheets" "v4" creds) sid = Raise e.
Proof.
  rewrite get_sheet_data_run. cbv zeta.
  destruct (from_service_account_file w _ _ _) as [creds|e0]; cbn [fst].
  - destruct (spreadsheets_get_execute w _ _ _) as [sp|e1] eqn:Hget;
      cbn [fst].
    + destruct (values_get_execute w _ _ _ _); discriminate.
    + intros [= ->]. right. exists creds. now split.
  - intros [= ->]. now left.
Qed.

(** C10.  When the values request raises, [get_sheet_data] does not: it
    prints [Error accessing sheet data: <e>] after the worksheet listing and
    returns normally. *)
Theorem get_sheet_data_swallows_fetch_failure
  (w : World) (sid name rng : string) (st : State)
  (creds : Credentials) (sp : Spreadsheet) (e : exn) :
  from_service_account_file w (List.length (calls st))
    SERVICE_ACCOUNT_FILE SCOPES = Ok creds ->
  spreadsheets_get_execute w (S (List.length (calls st)))
    (build "sheets" "v4" creds) sid = Ok sp ->
  values_get_execute w (S (S (List.length (calls st))))
    (build "sheets" "v4" creds) sid ("'" ++ name ++ "'!" ++ rng)%string
  = Raise e ->
  get_sheet_data w sid name rng st
  = (Ok tt,
     mkState
       ((stdout st ++ "Available sheets:"
           :: listing_lines (Py.dict_get (sheets sp) []))
        ++ [("Error accessing sheet data: " ++ exn_str e)%string])
       (calls st
        ++ [CallAuth SERVICE_ACCOUNT_FILE SCOPES; CallGet sid;
            CallValuesGet sid ("'" ++ name ++ "'!" ++ rng)%string])).
Proof.
  intros Hauth Hget Hvalues.
  rewrite get_sheet_data_run. cbv zeta. unfold range_arg.
  now rewrite Hauth, Hget, Hvalues.
Qed.

Lemma get_sheet_data_swallows_fetch_failure_witness :
  get_sheet_data Sample.fetch_refused SPREADSHEET_ID SHEET_NAME RANGE_NAME init
  = (Ok tt,
     mkState
       ["Available sheets:"; "- Sheet1"; "- PROMT Temp: UX Researcher";
        "  ^^^ Found matching sheet: PROMT Temp: UX Researcher"; "- Other";
        "Error accessing sheet data: Unable to parse range"]
       [CallAuth SERVICE_ACCOUNT_FILE SCOPES; CallGet SPREADSHEET_ID;
        CallValuesGet SPREADSHEET_ID
          ("'" ++ SHEET_NAME ++ "'!" ++ RANGE_NAME)%string]).
Proof.
  apply (get_sheet_data_swallows_fetch_failure Sample.fetch_refused
           SPREADSHEET_ID SHEET_NAME RANGE_NAME init
           (mkCredentials SERVICE_ACCOUNT_FILE SCOPES) Sample.metadata
           Sample.no_such_range); reflexivity.
Defined.

(** A run whose first values request raises: the exception stops inside
    [get_sheet_data], so the handler of the top level never runs and the
    run ends after this one request. *)
Lemma primary_fetch_failure_run
  (w : World) (c0 c2 : Credentials) (sp1 sp3 : Spreadsheet) (e : exn) :
  from_service_account_file w 0 SERVICE_ACCOUNT_FILE SCOPES = Ok c0 ->
  spreadsheets_get_execute w 1 (build "sheets" "v4" c0) SPREADSHEET_ID = Ok sp1 ->
  from_service_account_file w 2 SERVICE_ACCOUNT_FILE SCOPES = Ok c2 ->
  spreadsheets_get_execute w 3 (build "sheets" "v4" c2) SPREADSHEET_ID = Ok sp3 ->
  values_get_execute w 4 (build "sheets" "v4" c2) SPREADSHEET_ID
    (range_arg (resolved_name (Py.dict_get (sheets sp1) []) SHEET_NAME) RANGE_NAME)
  = Raise e ->
  fst (main w init) = Ok tt
  /\ fetch_attempts (calls (snd (main w init))) = 1
  /\ last (stdout (snd (main w init))) ""
     = ("Error accessing sheet data: " ++ exn_str e)%string.
Proof.
  intros H0 H1 H2 H3 H4.
  rewrite main_run, H0, H1. cbv zeta.
  rewrite get_sheet_data_run. cbv zeta. cbn [calls stdout List.length].
  rewrite H2, H3, H4. cbn [fst snd calls stdout].
  repeat split.
  apply last_last.
Qed.

(** C1, on the code.  In the run where every authentication and listing
    succeeds and the values request is refused, the program makes this one
    request, prints the diagnostic of [get_sheet_data] and ends normally:
    the second attempt with the other spelling of the name is not made. *)
Theorem fetch_failure_gets_no_second_attempt :
  values_get_execute Sample.fetch_refused 4
    (build "sheets" "v4" (mkCredentials SERVICE_ACCOUNT_FILE SCOPES))
    SPREADSHEET_ID "'PROMT Temp: UX Researcher'!A1:Z100"
  = Raise Sample.no_such_range
  /\ main Sample.fetch_refused init
     = (Ok tt,
        mkState
          [(Py.nl ++ "Found matching sheet: PROMT Temp: UX Researcher")%string;
           "Available sheets:"; "- Sheet1"; "- PROMT Temp: UX Researcher";
           "  ^^^ Found matching sheet: PROMT Temp: UX Researcher"; "- Other";
           "Error accessing sheet data: Unable to parse range"]
          [CallAuth SERVICE_ACCOUNT_FILE SCOPES; CallGet SPREADSHEET_ID;
           CallAuth SERVICE_ACCOUNT_FILE SCOPES; CallGet SPREADSHEET_ID;
           CallValuesGet SPREADSHEET_ID "'PROMT Temp: UX Researcher'!A1:Z100"])
  /\ fetch_attempts (calls (snd (main Sample.fetch_refused init))) = 1.
Proof. repeat split. Qed.

(** ** The range argument *)

Lemma in_snoc_values_get (cs new : list Call) (s r : string) :
  In (CallValuesGet s r) (cs ++ new) ->
  In (CallValuesGet s r) cs \/ In (CallValuesGet s r) new.
Proof. apply in_app_or. Qed.

Lemma get_sheet_data_values_get
  (w : World) (sid name rng : string) (st : State) (s r : string) :
  In (CallValuesGet s r) (calls (snd (get_sheet_data w sid name rng st))) ->
  In (CallValuesGet s r) (calls st)
  \/ (s = sid /\ r = ("'" ++ name ++ "'!" ++ rng)%string).
Proof.
  rewrite get_sheet_data_run. cbv zeta.
  destruct (from_service_account_file w _ _ _) as [creds|e];
    [destruct (spreadsheets_get_execute w _ _ _) as [sp|e];
     [destruct (values_get_execute w _ _ _ _) as [v|e]|]|];
    cbn [snd calls]; intros Hin;
    apply in_snoc_values_get in Hin; destruct Hin as [Hin|Hin];
    try (now left);
    simpl in Hin; intuition (try discriminate);
    match goal with
    | H : CallValuesGet _ _ = CallValuesGet _ _ |- _ =>
        inversion H; right; now split
    end.
Qed.

(** The values requests among the calls of a run. *)
Lemma main_values_requests_first_call
  (w : World) (c0 c2 : Credentials) (sp sp3 : Spreadsheet) :
  from_service_account_file w 0 SERVICE_ACCOUNT_FILE SCOPES = Ok c0 ->
  spreadsheets_get_execute w 1 (build "sheets" "v4" c0) SPREADSHEET_ID = Ok sp ->
  from_service_account_file w 2 SERVICE_ACCOUNT_FILE SCOPES = Ok c2 ->
  spreadsheets_get_execute w 3 (build "sheets" "v4" c2) SPREADSHEET_ID = Ok sp3 ->
  filter is_values_get (calls (snd (main w init)))
  = [CallValuesGet SPREADSHEET_ID
       (range_arg (resolved_name (Py.dict_get (sheets sp) []) SHEET_NAME)
          RANGE_NAME)].
Proof.
  intros H0 H1 H2 H3.
  rewrite main_run, H0, H1. cbv zeta.
  rewrite get_sheet_data_run. cbv zeta. cbn [calls stdout List.length].
  rewrite H2, H3.
  destruct (values_get_execute w 4 _ _ _); reflexivity.
Qed.

Lemma main_values_requests_second_call
  (w : World) (c0 : Credentials) (sp : Spreadsheet) (e1 : exn) (s r : string) :
  from_service_account_file w 0 SERVICE_ACCOUNT_FILE SCOPES = Ok c0 ->
  spreadsheets_get_execute w 1 (build "sheets" "v4" c0) SPREADSHEET_ID = Ok sp ->
  (from_service_account_file w 2 SERVICE_ACCOUNT_FILE SCOPES = Raise e1
   \/ exists c2 : Credentials,
       from_service_account_file w 2 SERVICE_ACCOUNT_FILE SCOPES = Ok c2
       /\ spreadsheets_get_execute w 3 (build "sheets" "v4" c2) SPREADSHEET_ID
          = Raise e1) ->
  In (CallValuesGet s r) (calls (snd (main w init))) ->
  s = SPREADSHEET_ID /\ r = range_arg SHEET_NAME_VARIATION RANGE_NAME.
Proof.
  intros H0 H1 Hfirst.
  rewrite main_run, H0, H1. cbv zeta.
  destruct Hfirst as [H2|[c2 [H2 H3]]].
  - rewrite (get_sheet_data_auth_failure w _ _ _ _ e1) by exact H2.
    intros Hin. apply get_sheet_data_values_get in Hin.
    cbn in Hin. intuition discriminate.
  - rewrite (get_sheet_data_listing_failure_run w _ _ _ _ c2 e1)
      by assumption.
    intros Hin. apply get_sheet_data_values_get in Hin.
    cbn in Hin. intuition discriminate.
Qed.

(** C8, as the code has it.  (1) Every values request of a call
    [get_sheet_data(spreadsheet_id, sheet_name, range_name)] has as its
    range argument the worksheet name it was given between single quotes,
    then [!], then the range expression.  (2) When the first call of
    [get_sheet_data] reaches its values request, this is the only values
    request of the run, and its range argument is the name the resolver
    selected, between single quotes, then [!A1:Z100].  (3) When the first
    call fails before its values request, every values request of the run
    names the other spelling, ['PROMT Temp: UX Researcher'!A1:Z100], and
    not the name the resolver selected.  (4) When the authentication or the
    listing of the top level fails, the run makes no values request. *)
Theorem values_request_range_of_each_attempt (w : World) :
  (forall (sid name rng : string) (st : State) (s r : string),
      In (CallValuesGet s r) (calls (snd (get_sheet_data w sid name rng st))) ->
      In (CallValuesGet s r) (calls st)
      \/ (s = sid /\ r = ("'" ++ name ++ "'!" ++ rng)%string))
  /\ (forall (c0 c2 : Credentials) (sp sp3 : Spreadsheet),
        from_service_account_file w 0 SERVICE_ACCOUNT_FILE SCOPES = Ok c0 ->
        spreadsheets_get_execute w 1 (build "sheets" "v4" c0) SPREADSHEET_ID
        = Ok sp ->
        from_service_account_file w 2 SERVICE_ACCOUNT_FILE SCOPES = Ok c2 ->
        spreadsheets_get_execute w 3 (build "sheets" "v4" c2) SPREADSHEET_ID
        = Ok sp3 ->
        filter is_values_get (calls (snd (main w init)))
        = [CallValuesGet SPREADSHEET_ID
             ("'" ++ resolved_name (Py.dict_get (sheets sp) []) SHEET_NAME
                  ++ "'!" ++ "A1:Z100")%string])
  /\ (forall (c0 : Credentials) (sp : Spreadsheet) (e1 : exn),
        from_service_account_file w 0 SERVICE_ACCOUNT_FILE SCOPES = Ok c0 ->
        spreadsheets_get_execute w 1 (build "sheets" "v4" c0) SPREADSHEET_ID
        = Ok sp ->
        (from_service_account_file w 2 SERVICE_ACCOUNT_FILE SCOPES = Raise e1
         \/ exists c2 : Credentials,
             from_service_account_file w 2 SERVICE_ACCOUNT_FILE SCOPES = Ok c2
             /\ spreadsheets_get_execute w 3 (build "sheets" "v4" c2)
                  SPREADSHEET_ID = Raise e1) ->
        forall s r : string,
          In (CallValuesGet s r) (calls (snd (main w init))) ->
          s = SPREADSHEET_ID
          /\ r = ("'" ++ "PROMT Temp: UX Researcher" ++ "'!" ++ "A1:Z100")%string)
  /\ (forall e : exn,
        (from_service_account_file w 0 SERVICE_ACCOUNT_FILE SCOPES = Raise e
         \/ exists c0 : Credentials,
             from_service_account_file w 0 SERVICE_ACCOUNT_FILE SCOPES = Ok c0
             /\ spreadsheets_get_execute w 1 (build "sheets" "v4" c0)
                  SPREADSHEET_ID = Raise e) ->
        filter is_values_get (calls (snd (main w init))) = []).
Proof.
  split; [|split; [|split]].
  - intros sid name rng st s r. apply get_sheet_data_values_get.
  - intros c0 c2 sp sp3 H0 H1 H2 H3.
    exact (main_values_requests_first_call w c0 c2 sp sp3 H0 H1 H2 H3).
  - intros c0 sp e1 H0 H1 Hfirst s r Hin.
    exact (main_values_requests_second_call w c0 sp e1 s r H0 H1 Hfirst Hin).
  - intros e [H0|[c0 [H0 H1]]]; rewrite main_run, H0, ?H1; reflexivity.
Qed.

Lemma values_request_range_of_each_attempt_witness :
  (In (CallValuesGet SPREADSHEET_ID "'PROMT Temp: UX Researcher'!A1:Z100")
      (calls init)
   \/ (SPREADSHEET_ID = SPREADSHEET_ID
       /\ "'PROMT Temp: UX Researcher'!A1:Z100"
          = ("'" ++ "PROMT Temp: UX Researcher" ++ "'!" ++ "A1:Z100")%string))
  /\ filter is_values_get (calls (snd (main Sample.all_good init)))
     = [CallValuesGet SPREADSHEET_ID "'PROMT Temp: UX Researcher'!A1:Z100"]
  /\ (SPREADSHEET_ID = SPREADSHEET_ID
      /\ "'PROMT Temp: UX Researcher'!A1:Z100"
         = ("'" ++ "PROMT Temp: UX Researcher" ++ "'!" ++ "A1:Z100")%string)
  /\ filter is_values_get
       (calls (snd (main (Sample.key_file_missing_at 0) init))) = [].
Proof.
  assert (Hhelper :
    In (CallValuesGet SPREADSHEET_ID "'PROMT Temp: UX Researcher'!A1:Z100")
       (calls (snd (get_sheet_data Sample.all_good SPREADSHEET_ID
                      "PROMT Temp: UX Researcher" "A1:Z100" init))))
    by (vm_compute; tauto).
  assert (Hsecond :
    In (CallValuesGet SPREADSHEET_ID "'PROMT Temp: UX Researcher'!A1:Z100")
       (calls (snd (main Outage.other_match_then_no_key init))))
    by (vm_compute; tauto).
  split; [|split; [|split]].
  - exact (proj1 (values_request_range_of_each_attempt Sample.all_good)
             _ _ _ _ _ _ Hhelper).
  - exact (proj1 (proj2 (values_request_range_of_each_attempt Sample.all_good))
             (mkCredentials SERVICE_ACCOUNT_FILE SCOPES)
             (mkCredentials SERVICE_ACCOUNT_FILE SCOPES)
             Sample.metadata Sample.metadata
             eq_refl eq_refl eq_refl eq_refl).
  - exact (proj1 (proj2 (proj2 (values_request_range_of_each_attempt
                                  Outage.other_match_then_no_key)))
             (mkCredentials SERVICE_ACCOUNT_FILE SCOPES)
             (mkSpreadsheet (Some (sheets_of ["PROMT Temp: UX Designer"])))
             Sample.no_key_file eq_refl eq_refl (or_introl eq_refl)
             _ _ Hsecond).
  - exact (proj2 (proj2 (proj2 (values_request_range_of_each_attempt
                                  (Sample.key_file_missing_at 0))))
             Sample.no_key_file (or_introl eq_refl)).
Defined.

(** C8, as stated, fails: in the run where the listing shows the worksheet
    [PROMT Temp: UX Designer] only and the key file cannot be read by the
    first call of [get_sheet_data], the resolver selects
    [PROMT Temp: UX Designer], and the one values request of the run, made
    by the second call, is for ['PROMT Temp: UX Researcher'!A1:Z100], which
    is not the selected name between quotes before [!A1:Z100]. *)
Lemma fallback_request_not_resolved_name :
  fst (find_sheet_name (sheets_of ["PROMT Temp: UX Designer"]) SHEET_NAME
         (mkState [] [CallAuth SERVICE_ACCOUNT_FILE SCOPES;
                      CallGet SPREADSHEET_ID]))
  = Ok "PROMT Temp: UX Designer"
  /\ filter is_values_get
       (calls (snd (main Outage.other_match_then_no_key init)))
     = [CallValuesGet SPREADSHEET_ID "'PROMT Temp: UX Researcher'!A1:Z100"]
  /\ "'PROMT Temp: UX Researcher'!A1:Z100"
     <> ("'" ++ "PROMT Temp: UX Designer" ++ "'!" ++ "A1:Z100")%string.
Proof. repeat split. discriminate. Qed.

(** ** Failures of the authentication *)

(** C2, as the code has it.  (1) When the authentication of the top level
    raises, the run ends with this exception, uncaught, having printed
    nothing and made no other call.  (2) When the authentication inside the
    first call of [get_sheet_data] raises, the handler of the top level
    catches it: [Error: <e>] and the notice of a second attempt are printed
    and [get_sheet_data] is called again with the other spelling.  (3) When
    the authentication inside that second call raises, the run ends with
    this exception, uncaught, and nothing is attempted after it. *)
Theorem authentication_failure_outcomes (w : World) (e : exn) :
  (from_service_account_file w 0 SERVICE_ACCOUNT_FILE SCOPES = Raise e ->
   main w init
   = (Raise e, mkState [] [CallAuth SERVICE_ACCOUNT_FILE SCOPES]))
  /\ (forall (creds : Credentials) (sp : Spreadsheet),
        from_service_account_file w 0 SERVICE_ACCOUNT_FILE SCOPES = Ok creds ->
        spreadsheets_get_execute w 1 (build "sheets" "v4" creds) SPREADSHEET_ID
        = Ok sp ->
        from_service_account_file w 2 SERVICE_ACCOUNT_FILE SCOPES = Raise e ->
        main w init
        = get_sheet_data w SPREADSHEET_ID "PROMT Temp: UX Researcher" RANGE_NAME
            (mkState
               [resolved_line (Py.dict_get (sheets sp) []);
                ("Error: " ++ exn_str e)%string;
                (Py.nl ++ "Trying with a different sheet name variation...")%string]
               [CallAuth SERVICE_ACCOUNT_FILE SCOPES; CallGet SPREADSHEET_ID;
                CallAuth SERVICE_ACCOUNT_FILE SCOPES]))
  /\ (forall (creds : Credentials) (sp : Spreadsheet) (e1 : exn) (st2 : State),
        from_service_account_file w 0 SERVICE_ACCOUNT_FILE SCOPES = Ok creds ->
        spreadsheets_get_execute w 1 (build "sheets" "v4" creds) SPREADSHEET_ID
        = Ok sp ->
        get_sheet_data w SPREADSHEET_ID
          (resolved_name (Py.dict_get (sheets sp) []) SHEET_NAME) RANGE_NAME
          (mkState [resolved_line (Py.dict_get (sheets sp) [])]
             [CallAuth SERVICE_ACCOUNT_FILE SCOPES; CallGet SPREADSHEET_ID])
        = (Raise e1, st2) ->
        from_service_account_file w (List.length (calls st2))
          SERVICE_ACCOUNT_FILE SCOPES = Raise e ->
        main w init
        = (Raise e,
           mkState
             (stdout st2
              ++ [("Error: " ++ exn_str e1)%string;
                  (Py.nl ++ "Trying with a different sheet name variation...")%string])
             (calls st2 ++ [CallAuth SERVICE_ACCOUNT_FILE SCOPES]))).
Proof.
  split; [|split].
  - intros H0. rewrite main_run. now rewrite H0.
  - intros creds sp H0 H1 H2.
    rewrite main_run, H0, H1. cbv zeta.
    rewrite (get_sheet_data_auth_failure w _ _ _ _ e) by exact H2.
    reflexivity.
  - intros creds sp e1 st2 H0 H1 Hfirst Hauth.
    rewrite main_run, H0, H1. cbv zeta. rewrite Hfirst.
    now rewrite (get_sheet_data_auth_failure w _ _ _ _ e) by exact Hauth.
Qed.

Lemma authentication_failure_outcomes_witness :
  main (Sample.key_file_missing_at 0) init
  = (Raise Sample.no_key_file, mkState [] [CallAuth SERVICE_ACCOUNT_FILE SCOPES])
  /\ main (Sample.key_file_missing_at 2) init
     = get_sheet_data (Sample.key_file_missing_at 2) SPREADSHEET_ID
         "PROMT Temp: UX Researcher" RANGE_NAME
         (mkState
            [(Py.nl ++ "Found matching sheet: PROMT Temp: UX Researcher")%string;
             "Error: No such file or directory";
             (Py.nl ++ "Trying with a different sheet name variation...")%string]
            [CallAuth SERVICE_ACCOUNT_FILE SCOPES; CallGet SPREADSHEET_ID;
             CallAuth SERVICE_ACCOUNT_FILE SCOPES])
  /\ main Sample.key_file_read_once init
     = (Raise Sample.no_key_file,
        mkState
          [(Py.nl ++ "Found matching sheet: PROMT Temp: UX Researcher")%string;
           "Error: No such file or directory";
           (Py.nl ++ "Trying with a different sheet name variation...")%string]
          [CallAuth SERVICE_ACCOUNT_FILE SCOPES; CallGet SPREADSHEET_ID;
           CallAuth SERVICE_ACCOUNT_FILE SCOPES;
           CallAuth SERVICE_ACCOUNT_FILE SCOPES]).
Proof.
  split; [|split].
  - apply (proj1 (authentication_failure_outcomes
                    (Sample.key_file_missing_at 0) Sample.no_key_file)).
    reflexivity.
  - apply (proj1 (proj2 (authentication_failure_outcomes
                           (Sample.key_file_missing_at 2) Sample.no_key_file))
             (mkCredentials SERVICE_ACCOUNT_FILE SCOPES) Sample.metadata);
      reflexivity.
  - apply (proj2 (proj2 (authentication_failure_outcomes
                           Sample.key_file_read_once Sample.no_key_file))
             (mkCredentials SERVICE_ACCOUNT_FILE SCOPES) Sample.metadata
             Sample.no_key_file
             (mkState
                [(Py.nl ++ "Found matching sheet: PROMT Temp: UX Researcher")%string]
                [CallAuth SERVICE_ACCOUNT_FILE SCOPES; CallGet SPREADSHEET_ID;
                 CallAuth SERVICE_ACCOUNT_FILE SCOPES]));
      reflexivity.
Defined.

(** C2, as stated, fails: in the run where the key file cannot be read by
    the first call of [get_sheet_data] one authentication fails, and yet the
    program goes on to its second attempt and ends normally. *)
Lemma authentication_failure_is_retried :
  auth_failures (Sample.key_file_missing_at 2)
    (calls (snd (main (Sample.key_file_missing_at 2) init))) = 1
  /\ fst (main (Sample.key_file_missing_at 2) init) = Ok tt
  /\ In (Py.nl ++ "Trying with a different sheet name variation...")%string
        (stdout (snd (main (Sample.key_file_missing_at 2) init)))
  /\ auth_attempts (calls (snd (main (Sample.key_file_missing_at 2) init))) = 3.
Proof. repeat split. vm_compute. tauto. Qed.

(** C4, as the code has it.  When the authentication of the top level
    raises, the run makes no listing and no values request.  When the
    authentication inside a call of [get_sheet_data] raises, this call makes
    no listing and no values request. *)
Theorem authentication_failure_short_circuits (w : World) (e : exn) :
  (from_service_account_file w 0 SERVICE_ACCOUNT_FILE SCOPES = Raise e ->
   fst (main w init) = Raise e
   /\ listing_attempts (calls (snd (main w init))) = 0
   /\ fetch_attempts (calls (snd (main w init))) = 0)
  /\ (forall (sid name rng : string) (st : State),
        from_service_account_file w (List.length (calls st))
          SERVICE_ACCOUNT_FILE SCOPES = Raise e ->
        fst (get_sheet_data w sid name rng st) = Raise e
        /\ listing_attempts (calls (snd (get_sheet_data w sid name rng st)))
           = listing_attempts (calls st)
        /\ fetch_attempts (calls (snd (get_sheet_data w sid name rng st)))
           = fetch_attempts (calls st)).
Proof.
  split.
  - intros H0. rewrite main_run, H0. repeat split.
  - intros sid name rng st Hauth.
    rewrite (get_sheet_data_auth_failure w sid name rng st e Hauth).
    cbn [fst snd calls]. unfold listing_attempts, fetch_attempts.
    rewrite !filter_app, !length_app. cbn. repeat split; lia.
Qed.

Lemma authentication_failure_short_circuits_witness :
  (fst (main (Sample.key_file_missing_at 0) init) = Raise Sample.no_key_file
   /\ listing_attempts (calls (snd (main (Sample.key_file_missing_at 0) init))) = 0
   /\ fetch_attempts (calls (snd (main (Sample.key_file_missing_at 0) init))) = 0)
  /\ (fst (get_sheet_data (Sample.key_file_missing_at 0) SPREADSHEET_ID
             SHEET_NAME RANGE_NAME init) = Raise Sample.no_key_file
      /\ listing_attempts
           (calls (snd (get_sheet_data (Sample.key_file_missing_at 0)
                          SPREADSHEET_ID SHEET_NAME RANGE_NAME init)))
         = listing_attempts (calls init)
      /\ fetch_attempts
           (calls (snd (get_sheet_data (Sample.key_file_missing_at 0)
                          SPREADSHEET_ID SHEET_NAME RANGE_NAME init)))
         = fetch_attempts (calls init)).
Proof.
  split.
  - apply (proj1 (authentication_failure_short_circuits
                    (Sample.key_file_missing_at 0) Sample.no_key_file)).
    reflexivity.
  - apply (proj2 (authentication_failure_short_circuits
                    (Sample.key_file_missing_at 0) Sample.no_key_file)).
    reflexivity.
Defined.

(** C4, as stated, fails: in the run where the key file cannot be read by
    the first call of [get_sheet_data] one authentication fails, a listing
    has been made before it, and a listing and a values request are made
    after it. *)
Lemma authentication_failure_amid_requests :
  auth_failures (Sample.key_file_missing_at 2)
    (calls (snd (main (Sample.key_file_missing_at 2) init))) = 1
  /\ calls (snd (main (Sample.key_file_missing_at 2) init))
     = [CallAuth SERVICE_ACCOUNT_FILE SCOPES; CallGet SPREADSHEET_ID;
        CallAuth SERVICE_ACCOUNT_FILE SCOPES;
        CallAuth SERVICE_ACCOUNT_FILE SCOPES; CallGet SPREADSHEET_ID;
        CallValuesGet SPREADSHEET_ID "'PROMT Temp: UX Researcher'!A1:Z100"]
  /\ listing_attempts (calls (snd (main (Sample.key_file_missing_at 2) init))) = 2
  /\ fetch_attempts (calls (snd (main (Sample.key_file_missing_at 2) init))) = 1.
Proof. repeat split. Qed.

(** * Further properties of the script *)

(** ** The calls of a run *)

(** One step of a case analysis on the answers of the world: the next
    answer the goal depends on is split into success and failure. *)
Ltac world_answer :=
  match goal with
  | |- context [match from_service_account_file ?w ?n ?f ?s with _ => _ end] =>
      destruct (from_service_account_file w n f s) as [?creds|?e] eqn:?
  | |- context [match spreadsheets_get_execute ?w ?n ?v ?i with _ => _ end] =>
      destruct (spreadsheets_get_execute w n v i) as [?sp|?e] eqn:?
  | |- context [match values_get_execute ?w ?n ?v ?i ?g with _ => _ end] =>
      destruct (values_get_execute w n v i g) as [?vr|?e] eqn:?
  end.

(** All the runs of the script: [main] is opened, then each call of
    [get_sheet_data] as it comes up, and every answer is split. *)
Ltac all_runs :=
  rewrite main_run;
  repeat (first
    [ world_answer
    | rewrite get_sheet_data_run ];
    cbv zeta; cbn [fst snd calls stdout List.length app]).

(** X1.  The external calls of a run, in order, follow one of nine
    patterns.  Every run starts with an authentication; every listing comes
    right after an authentication and every values request right after a
    listing; there are at most three authentications, three listings and
    one values request, and nothing follows the values request. *)
Theorem main_call_shapes (w : World) :
  In (map kind_of (calls (snd (main w init)))) run_shapes.
Proof.
  all_runs; cbn [map kind_of]; unfold run_shapes;
    repeat (first [left; reflexivity | right]).
Qed.

(** X2.  A run ends normally exactly when it has made a values request: a
    run that ends with an uncaught exception has made none, and a run that
    ends normally has made one, whether this request succeeded or not. *)
Theorem main_returns_iff_fetched (w : World) :
  (fst (main w init) = Ok tt <->
   fetch_attempts (calls (snd (main w init))) = 1)
  /\ ((exists e, fst (main w init) = Raise e) <->
      fetch_attempts (calls (snd (main w init))) = 0).
Proof.
  all_runs; cbn; (split; split; intros H;
    try reflexivity; try discriminate; try (destruct H; discriminate);
    try (eexists; reflexivity)).
Qed.

(** ** Failures of the listing *)

(** X3.  When the listing of the top level raises, the run ends with this
    exception, uncaught: nothing has been printed, [get_sheet_data] is not
    called and no further call is made. *)
Theorem main_listing_failure_is_fatal
  (w : World) (creds : Credentials) (e : exn) :
  from_service_account_file w 0 SERVICE_ACCOUNT_FILE SCOPES = Ok creds ->
  spreadsheets_get_execute w 1 (build "sheets" "v4" creds) SPREADSHEET_ID
  = Raise e ->
  main w init
  = (Raise e,
     mkState [] [CallAuth SERVICE_ACCOUNT_FILE SCOPES; CallGet SPREADSHEET_ID]).
Proof.
  intros H0 H1. rewrite main_run. now rewrite H0, H1.
Qed.

Lemma main_listing_failure_is_fatal_witness :
  main (Outage.listing_refused_from 0) init
  = (Raise Outage.not_found,
     mkState [] [CallAuth SERVICE_ACCOUNT_FILE SCOPES; CallGet SPREADSHEET_ID]).
Proof.
  apply (main_listing_failure_is_fatal _
           (mkCredentials SERVICE_ACCOUNT_FILE SCOPES)); reflexivity.
Defined.

(** X4.  When the listing inside [get_sheet_data] raises, the call raises
    the same exception to its caller: it prints nothing, not even the
    heading of the worksheet list, and makes no values request.  Only the
    values request is guarded by the handler of [get_sheet_data]. *)
Theorem get_sheet_data_listing_failure
  (w : World) (sid name rng : string) (st : State)
  (creds : Credentials) (e : exn) :
  from_service_account_file w (List.length (calls st))
    SERVICE_ACCOUNT_FILE SCOPES = Ok creds ->
  spreadsheets_get_execute w (S (List.length (calls st)))
    (build "sheets" "v4" creds) sid = Raise e ->
  get_sheet_data w sid name rng st
  = (Raise e,
     mkState (stdout st)
       (calls st ++ [CallAuth SERVICE_ACCOUNT_FILE SCOPES; CallGet sid])).
Proof. apply get_sheet_data_listing_failure_run. Qed.

Lemma get_sheet_data_listing_failure_witness :
  get_sheet_data
    (Outage.listing_refused_from 0)
    SPREADSHEET_ID SHEET_NAME RANGE_NAME init
  = (Raise Outage.not_found,
     mkState [] [CallAuth SERVICE_ACCOUNT_FILE SCOPES; CallGet SPREADSHEET_ID]).
Proof.
  apply (get_sheet_data_listing_failure _ _ _ _ init
           (mkCredentials SERVICE_ACCOUNT_FILE SCOPES)); reflexivity.
Defined.

(** X5.  When the listing inside the first call of [get_sheet_data] raises
    [e1], the top level prints [Error: <e1>] and the notice of a second
    attempt and calls [get_sheet_data] again with the other spelling of the
    name.  When the listing of that second call raises [e2] as well, the run
    ends with [e2], uncaught: the program prints nothing about [e2] and
    makes no values request at all. *)
Theorem listing_failure_in_first_call
  (w : World) (c0 c2 : Credentials) (sp : Spreadsheet) (e1 : exn) :
  from_service_account_file w 0 SERVICE_ACCOUNT_FILE SCOPES = Ok c0 ->
  spreadsheets_get_execute w 1 (build "sheets" "v4" c0) SPREADSHEET_ID = Ok sp ->
  from_service_account_file w 2 SERVICE_ACCOUNT_FILE SCOPES = Ok c2 ->
  spreadsheets_get_execute w 3 (build "sheets" "v4" c2) SPREADSHEET_ID
  = Raise e1 ->
  main w init
  = get_sheet_data w SPREADSHEET_ID "PROMT Temp: UX Researcher" "A1:Z100"
      (mkState
         [resolved_line (Py.dict_get (sheets sp) []);
          ("Error: " ++ exn_str e1)%string;
          (Py.nl ++ "Trying with a different sheet name variation...")%string]
         [CallAuth SERVICE_ACCOUNT_FILE SCOPES; CallGet SPREADSHEET_ID;
          CallAuth SERVICE_ACCOUNT_FILE SCOPES; CallGet SPREADSHEET_ID])
  /\ (forall (c4 : Credentials) (e2 : exn),
        from_service_account_file w 4 SERVICE_ACCOUNT_FILE SCOPES = Ok c4 ->
        spreadsheets_get_execute w 5 (build "sheets" "v4" c4) SPREADSHEET_ID
        = Raise e2 ->
        main w init
        = (Raise e2,
           mkState
             [resolved_line (Py.dict_get (sheets sp) []);
              ("Error: " ++ exn_str e1)%string;
              (Py.nl ++ "Trying with a different sheet name variation...")%string]
             [CallAuth SERVICE_ACCOUNT_FILE SCOPES; CallGet SPREADSHEET_ID;
              CallAuth SERVICE_ACCOUNT_FILE SCOPES; CallGet SPREADSHEET_ID;
              CallAuth SERVICE_ACCOUNT_FILE SCOPES; CallGet SPREADSHEET_ID])).
Proof.
  intros H0 H1 H2 H3.
  assert (Hmain :
    main w init
    = get_sheet_data w SPREADSHEET_ID "PROMT Temp: UX Researcher" "A1:Z100"
        (mkState
           [resolved_line (Py.dict_get (sheets sp) []);
            ("Error: " ++ exn_str e1)%string;
            (Py.nl ++ "Trying with a different sheet name variation...")%string]
           [CallAuth SERVICE_ACCOUNT_FILE SCOPES; CallGet SPREADSHEET_ID;
            CallAuth SERVICE_ACCOUNT_FILE SCOPES; CallGet SPREADSHEET_ID])).
  { rewrite main_run, H0, H1. cbv zeta.
    rewrite (get_sheet_data_listing_failure_run w _ _ _ _ c2 e1) by assumption.
    reflexivity. }
  split; [exact Hmain|].
  intros c4 e2 H4 H5. rewrite Hmain.
  now rewrite (get_sheet_data_listing_failure_run w _ _ _ _ c4 e2) by assumption.
Qed.

Lemma listing_failure_in_first_call_witness :
  main (Outage.listing_refused_from 3) init
  = get_sheet_data (Outage.listing_refused_from 3) SPREADSHEET_ID
      "PROMT Temp: UX Researcher" "A1:Z100"
      (mkState
         [(Py.nl ++ "Found matching sheet: PROMT Temp: UX Researcher")%string;
          "Error: Requested entity was not found.";
          (Py.nl ++ "Trying with a different sheet name variation...")%string]
         [CallAuth SERVICE_ACCOUNT_FILE SCOPES; CallGet SPREADSHEET_ID;
          CallAuth SERVICE_ACCOUNT_FILE SCOPES; CallGet SPREADSHEET_ID])
  /\ main (Outage.listing_refused_from 3) init
     = (Raise Outage.not_found,
        mkState
          [(Py.nl ++ "Found matching sheet: PROMT Temp: UX Researcher")%string;
           "Error: Requested entity was not found.";
           (Py.nl ++ "Trying with a different sheet name variation...")%string]
          [CallAuth SERVICE_ACCOUNT_FILE SCOPES; CallGet SPREADSHEET_ID;
           CallAuth SERVICE_ACCOUNT_FILE SCOPES; CallGet SPREADSHEET_ID;
           CallAuth SERVICE_ACCOUNT_FILE SCOPES; CallGet SPREADSHEET_ID]).
Proof.
  assert (H : forall k, from_service_account_file (Outage.listing_refused_from 3)
                k SERVICE_ACCOUNT_FILE SCOPES
              = Ok (mkCredentials SERVICE_ACCOUNT_FILE SCOPES))
    by reflexivity.
  split.
  - apply (proj1 (listing_failure_in_first_call
                    (Outage.listing_refused_from 3) _ _ Sample.metadata
                    Outage.not_found (H 0) eq_refl (H 2) eq_refl)).
  - apply (proj2 (listing_failure_in_first_call
                    (Outage.listing_refused_from 3) _ _ Sample.metadata
                    Outage.not_found (H 0) eq_refl (H 2) eq_refl)
             _ Outage.not_found (H 4) eq_refl).
Defined.

(** ** A run without failure *)

(** X6.  When no call fails, the run prints, in this order: the line of the
    resolver, the heading [Available sheets:], the worksheet list, and the
    report of the fetched values; it makes five calls.  The name in the
    values request comes from the listing of the top level, the worksheet
    list that is printed from the listing [get_sheet_data] makes itself. *)
Theorem main_without_failure
  (w : World) (c0 c2 : Credentials) (sp1 sp3 : Spreadsheet) (r : ValueRange) :
  from_service_account_file w 0 SERVICE_ACCOUNT_FILE SCOPES = Ok c0 ->
  spreadsheets_get_execute w 1 (build "sheets" "v4" c0) SPREADSHEET_ID = Ok sp1 ->
  from_service_account_file w 2 SERVICE_ACCOUNT_FILE SCOPES = Ok c2 ->
  spreadsheets_get_execute w 3 (build "sheets" "v4" c2) SPREADSHEET_ID = Ok sp3 ->
  values_get_execute w 4 (build "sheets" "v4" c2) SPREADSHEET_ID
    ("'" ++ resolved_name (Py.dict_get (sheets sp1) []) SHEET_NAME
         ++ "'!" ++ "A1:Z100")%string
  = Ok r ->
  main w init
  = (Ok tt,
     mkState
       (resolved_line (Py.dict_get (sheets sp1) [])
        :: "Available sheets:"
        :: listing_lines (Py.dict_get (sheets sp3) [])
        ++ report_lines (isprintable w)
             (resolved_name (Py.dict_get (sheets sp1) []) SHEET_NAME)
             "A1:Z100" r)
       [CallAuth SERVICE_ACCOUNT_FILE SCOPES; CallGet SPREADSHEET_ID;
        CallAuth SERVICE_ACCOUNT_FILE SCOPES; CallGet SPREADSHEET_ID;
        CallValuesGet SPREADSHEET_ID
          ("'" ++ resolved_name (Py.dict_get (sheets sp1) []) SHEET_NAME
               ++ "'!" ++ "A1:Z100")%string]).
Proof.
  intros H0 H1 H2 H3 H4.
  rewrite main_run, H0, H1. cbv zeta.
  rewrite get_sheet_data_run. cbv zeta. cbn [calls stdout List.length].
  unfold range_arg, RANGE_NAME in *.
  now rewrite H2, H3, H4.
Qed.

Lemma main_without_failure_witness :
  main Sample.all_good init
  = (Ok tt,
     mkState
       [(Py.nl ++ "Found matching sheet: PROMT Temp: UX Researcher")%string;
        "Available sheets:"; "- Sheet1"; "- PROMT Temp: UX Researcher";
        "  ^^^ Found matching sheet: PROMT Temp: UX Researcher"; "- Other";
        (Py.nl ++ "Data from PROMT Temp: UX Researcher!A1:Z100:")%string;
        "['a', 'b']"; "['c', 'd']"]
       [CallAuth SERVICE_ACCOUNT_FILE SCOPES; CallGet SPREADSHEET_ID;
        CallAuth SERVICE_ACCOUNT_FILE SCOPES; CallGet SPREADSHEET_ID;
        CallValuesGet SPREADSHEET_ID "'PROMT Temp: UX Researcher'!A1:Z100"]).
Proof.
  apply (main_without_failure Sample.all_good
           (mkCredentials SERVICE_ACCOUNT_FILE SCOPES)
           (mkCredentials SERVICE_ACCOUNT_FILE SCOPES)
           Sample.metadata Sample.metadata Sample.rows_ab_cd);
    reflexivity.
Defined.

(** ** The worksheet name of each attempt *)

(** X7.  Once the first call of [get_sheet_data] has failed, in its
    authentication or in its listing, the name the resolver selected is
    used no more: every values request of the run is for
    ['PROMT Temp: UX Researcher'!A1:Z100], whatever the listing held. *)
Theorem second_attempt_ignores_resolver
  (w : World) (c0 : Credentials) (sp : Spreadsheet) (e1 : exn) :
  from_service_account_file w 0 SERVICE_ACCOUNT_FILE SCOPES = Ok c0 ->
  spreadsheets_get_execute w 1 (build "sheets" "v4" c0) SPREADSHEET_ID = Ok sp ->
  (from_service_account_file w 2 SERVICE_ACCOUNT_FILE SCOPES = Raise e1
   \/ exists c2 : Credentials,
       from_service_account_file w 2 SERVICE_ACCOUNT_FILE SCOPES = Ok c2
       /\ spreadsheets_get_execute w 3 (build "sheets" "v4" c2) SPREADSHEET_ID
          = Raise e1) ->
  forall s r : string,
    In (CallValuesGet s r) (calls (snd (main w init))) ->
    s = SPREADSHEET_ID /\ r = "'PROMT Temp: UX Researcher'!A1:Z100".
Proof.
  intros H0 H1 Hfirst s r.
  rewrite main_run, H0, H1. cbv zeta.
  destruct Hfirst as [H2|[c2 [H2 H3]]].
  - rewrite (get_sheet_data_auth_failure w _ _ _ _ e1) by exact H2.
    intros Hin. apply get_sheet_data_values_get in Hin.
    cbn in Hin. intuition discriminate.
  - rewrite (get_sheet_data_listing_failure_run w _ _ _ _ c2 e1)
      by assumption.
    intros Hin. apply get_sheet_data_values_get in Hin.
    cbn in Hin. intuition discriminate.
Qed.

Lemma second_attempt_ignores_resolver_witness :
  resolved_name (sheets_of ["PROMT Temp: UX Designer"]) SHEET_NAME
  = "PROMT Temp: UX Designer"
  /\ In (CallValuesGet SPREADSHEET_ID "'PROMT Temp: UX Researcher'!A1:Z100")
        (calls (snd (main Outage.other_match_then_no_key init)))
  /\ (SPREADSHEET_ID = SPREADSHEET_ID
      /\ "'PROMT Temp: UX Researcher'!A1:Z100"
         = "'PROMT Temp: UX Researcher'!A1:Z100").
Proof.
  assert (Hin :
    In (CallValuesGet SPREADSHEET_ID "'PROMT Temp: UX Researcher'!A1:Z100")
       (calls (snd (main Outage.other_match_then_no_key init))))
    by (vm_compute; tauto).
  split; [reflexivity|]. split; [exact Hin|].
  apply (second_attempt_ignores_resolver Outage.other_match_then_no_key
           (mkCredentials SERVICE_ACCOUNT_FILE SCOPES)
           (mkSpreadsheet (Some (sheets_of ["PROMT Temp: UX Designer"])))
           Sample.no_key_file eq_refl eq_refl (or_introl eq_refl) _ _ Hin).
Defined.

Lemma resolved_name_origin (ss : list Sheet) (default : string) :
  (first_match ss = None /\ resolved_name ss default = default)
  \/ exists s : Sheet,
      In s ss /\ title_matches s = true
      /\ resolved_name ss default = title (properties s).
Proof.
  unfold resolved_name, first_match.
  destruct (find _ ss) as [s|] eqn:Hfind.
  - right. exists s. apply find_some in Hfind. tauto.
  - left. now split.
Qed.

Lemma default_name_contains_target : Py.Substring TARGET SHEET_NAME.
Proof. apply str_in_iff. reflexivity. Qed.

Lemma resolved_name_contains_target (ss : list Sheet) :
  Py.Substring TARGET (resolved_name ss SHEET_NAME).
Proof.
  destruct (resolved_name_origin ss SHEET_NAME) as [[_ ->]|(s & _ & Hs & ->)].
  - exact default_name_contains_target.
  - now apply str_in_iff.
Qed.

(** X8.  Whatever the listing holds, the name the loop of lines 68 to 75
    leaves in [SHEET_NAME] contains ['PROMT Temp: UX']: it is a listed title
    that contains it or the default name, which contains it too. *)
Theorem find_sheet_name_contains_target (ss : list Sheet) (st : State) :
  exists name : string,
    fst (find_sheet_name ss SHEET_NAME st) = Ok name
    /\ Py.Substring TARGET name
    /\ (name = SHEET_NAME
        \/ In name (map (fun s => title (properties s)) ss)).
Proof.
  rewrite find_sheet_name_run. cbn [fst].
  exists (resolved_name ss SHEET_NAME). split; [reflexivity|].
  split; [apply resolved_name_contains_target|].
  destruct (resolved_name_origin ss SHEET_NAME) as [[_ ->]|(s & Hin & _ & ->)].
  - now left.
  - right. now apply (in_map (fun s => title (properties s))).
Qed.

(** X9.  Every values request of every run is for the range [A1:Z100] of a
    worksheet whose name contains ['PROMT Temp: UX']: the program never
    fetches from a worksheet of another name. *)
Theorem every_request_names_a_target_worksheet (w : World) (s r : string) :
  In (CallValuesGet s r) (calls (snd (main w init))) ->
  exists name : string,
    r = ("'" ++ name ++ "'!A1:Z100")%string /\ Py.Substring TARGET name.
Proof.
  all_runs; cbn [In]; intros Hin;
    repeat match goal with
           | H : _ \/ _ |- _ => destruct H as [H|H]
           | H : False |- _ => destruct H
           | H : CallAuth _ _ = CallValuesGet _ _ |- _ => discriminate H
           | H : CallGet _ = CallValuesGet _ _ |- _ => discriminate H
           | H : CallValuesGet _ _ = CallValuesGet _ _ |- _ =>
               injection H as <- <-
           end;
    eexists; (split; [reflexivity|]);
    first [ apply resolved_name_contains_target
          | apply str_in_iff; reflexivity ].
Qed.

Lemma every_request_names_a_target_worksheet_witness :
  exists name : string,
    "'PROMT Temp: UX Researcher'!A1:Z100" = ("'" ++ name ++ "'!A1:Z100")%string
    /\ Py.Substring TARGET name.
Proof.
  apply (every_request_names_a_target_worksheet Sample.all_good
           SPREADSHEET_ID "'PROMT Temp: UX Researcher'!A1:Z100").
  vm_compute. tauto.
Defined.

(** ** The lines of the report *)

(** X10.  For a response with at least one row the reporter adds to
    standard output one heading and one line per row; the line of the
    [i]-th row is the [i]-th after the heading, so the rows come in the
    order of the response and equal rows are printed as often as they
    occur. *)
Theorem report_line_of_each_row
  (table : N -> bool) (sheet_name range_name : string)
  (vs : list (list string)) (st : State) :
  vs <> [] ->
  List.length (stdout (snd (report table sheet_name range_name
                              (mkValueRange (Some vs)) st)))
  = List.length (stdout st) + 1 + List.length vs
  /\ forall (i : nat) (row : list string),
      nth_error vs i = Some row ->
      nth_error (stdout (snd (report table sheet_name range_name
                                (mkValueRange (Some vs)) st)))
        (List.length (stdout st) + 1 + i)
      = Some (Py.repr_list table row).
Proof.
  intros Hvs. rewrite report_run. cbn [snd stdout].
  unfold report_lines. cbn [values Py.dict_get].
  destruct vs as [|row0 rows]; [contradiction|].
  split.
  - rewrite length_app. cbn [List.length]. rewrite length_map.
    cbn [List.length]. lia.
  - intros i row Hrow.
    rewrite nth_error_app2 by lia.
    replace (List.length (stdout st) + 1 + i - List.length (stdout st))
      with (S i) by lia.
    cbn [nth_error]. rewrite nth_error_map, Hrow. reflexivity.
Qed.

Lemma report_line_of_each_row_witness :
  List.length (stdout (snd (report Sample.unicode_14 "Sheet1" "A1:Z100"
                              (mkValueRange (Some [["a"]; ["b"]; ["a"]])) init)))
  = 0 + 1 + 3
  /\ nth_error (stdout (snd (report Sample.unicode_14 "Sheet1" "A1:Z100"
                               (mkValueRange (Some [["a"]; ["b"]; ["a"]])) init)))
       (0 + 1 + 2)
     = Some "['a']".
Proof.
  assert (Hvs : [["a"]; ["b"]; ["a"]] <> @nil (list string)) by discriminate.
  split.
  - exact (proj1 (report_line_of_each_row Sample.unicode_14
                    "Sheet1" "A1:Z100" _ init Hvs)).
  - exact (proj2 (report_line_of_each_row Sample.unicode_14
                    "Sheet1" "A1:Z100" _ init Hvs)
             2 ["a"] eq_refl).
Defined.

(** The report of a row with a no-break space, under the table of
    Unicode 14: the character is written [\xa0], as [print(row)] does. *)
Lemma report_of_no_break_space :
  report Sample.unicode_14 "Sheet1" "A1:Z100"
    (mkValueRange (Some [[("10" ++ Chars.no_break_space ++ "000")%string]]))
    init
  = (Ok tt,
     mkState [(Py.nl ++ "Data from Sheet1!A1:Z100:")%string; "['10\xa0000']"]
             []).
Proof. vm_compute. reflexivity. Qed.

(** ** How a row is written *)

Lemma all_chars_app (p : ascii -> bool) (s t : string) :
  all_chars p (s ++ t) = all_chars p s && all_chars p t.
Proof.
  induction s as [|c s IH]; cbn [append all_chars]; [reflexivity|].
  now rewrite IH, andb_assoc.
Qed.

Lemma repr_chars_unfold (table : N -> bool) (quote b0 : ascii) (s1 : string) :
  Py.repr_chars table quote (String b0 s1)
  = let one :=
      (Py.repr_char table quote (N_of_ascii b0) (String b0 EmptyString)
       ++ Py.repr_chars table quote s1)%string in
    if Py.is_lead2 b0 then
      match s1 with
      | String b1 s2 =>
          if Py.is_cont b1 then
            (Py.repr_char table quote (Py.code_point2 b0 b1)
               (String b0 (String b1 EmptyString))
             ++ Py.repr_chars table quote s2)%string
          else one
      | _ => one
      end
    else if Py.is_lead3 b0 then
      match s1 with
      | String b1 (String b2 s3) =>
          if Py.is_cont b1 && Py.is_cont b2 then
            (Py.repr_char table quote (Py.code_point3 b0 b1 b2)
               (String b0 (String b1 (String b2 EmptyString)))
             ++ Py.repr_chars table quote s3)%string
          else one
      | _ => one
      end
    else if Py.is_lead4 b0 then
      match s1 with
      | String b1 (String b2 (String b3 s4)) =>
          if Py.is_cont b1 && Py.is_cont b2 && Py.is_cont b3 then
            (Py.repr_char table quote (Py.code_point4 b0 b1 b2 b3)
               (String b0 (String b1 (String b2 (String b3 EmptyString))))
             ++ Py.repr_chars table quote s4)%string
          else one
      | _ => one
      end
    else one.
Proof. reflexivity. Qed.

Lemma hex_digit_no_control (n : nat) : is_control (Py.hex_digit n) = false.
Proof.
  unfold Py.hex_digit.
  do 16 (destruct n as [|n]; [reflexivity|]). destruct n; reflexivity.
Qed.

Lemma hex_digits_no_control (cp : N) (width : nat) :
  all_chars (fun d => negb (is_control d)) (Py.hex_digits cp width) = true.
Proof.
  induction width as [|k IH]; [reflexivity|].
  cbn [Py.hex_digits all_chars]. now rewrite hex_digit_no_control, IH.
Qed.

(** A byte that is not an ASCII control character, seen as a number. *)
Lemma byte_no_control (b : ascii) :
  N.ltb (N_of_ascii b) 32 = false -> is_control b = false.
Proof.
  destruct b as [[] [] [] [] [] [] [] []]; intros H;
    first [discriminate H | reflexivity].
Qed.

Lemma cont_no_control (b : ascii) :
  Py.is_cont b = true -> is_control b = false.
Proof.
  destruct b as [[] [] [] [] [] [] [] []]; intros H;
    first [discriminate H | reflexivity].
Qed.

Lemma lead_no_control (b : ascii) :
  Py.is_lead2 b = true \/ Py.is_lead3 b = true \/ Py.is_lead4 b = true ->
  is_control b = false.
Proof.
  destruct b as [[] [] [] [] [] [] [] []]; intros [H|[H|H]];
    first [discriminate H | reflexivity].
Qed.

(** The text [repr_char] writes for a character holds no control
    character when the bytes of the character, if it is not a control
    character itself, hold none. *)
Lemma repr_char_no_control
  (table : N -> bool) (quote : ascii) (cp : N) (raw : string) :
  quote = "'"%char \/ quote = "034"%char ->
  (N.ltb cp 32 = false ->
   all_chars (fun d => negb (is_control d)) raw = true) ->
  all_chars (fun d => negb (is_control d)) (Py.repr_char table quote cp raw)
  = true.
Proof.
  intros Hq Hraw. unfold Py.repr_char.
  destruct (N.eqb cp (N_of_ascii quote) || N.eqb cp 92) eqn:Hesc.
  { cbn [all_chars]. apply Hraw.
    apply orb_true_iff in Hesc.
    destruct Hesc as [Hesc|Hesc]; apply N.eqb_eq in Hesc; subst cp;
      [destruct Hq as [->| ->]|]; reflexivity. }
  destruct (N.eqb cp 9); [reflexivity|].
  destruct (N.eqb cp 10); [reflexivity|].
  destruct (N.eqb cp 13); [reflexivity|].
  destruct (N.ltb cp 32 || N.eqb cp 127) eqn:Hctl.
  { cbn [append all_chars]. apply hex_digits_no_control. }
  apply orb_false_iff in Hctl. destruct Hctl as [Hctl _].
  destruct (N.ltb cp 127); [now apply Hraw|].
  destruct (table cp); [now apply Hraw|].
  destruct (N.leb cp 255); [|destruct (N.leb cp 65535)];
    cbn [append all_chars]; apply hex_digits_no_control.
Qed.

Lemma repr_chars_no_control (table : N -> bool) (quote : ascii) (s : string) :
  quote = "'"%char \/ quote = "034"%char ->
  all_chars (fun d => negb (is_control d)) (Py.repr_chars table quote s) = true.
Proof.
  intros Hq.
  assert (Hlen : forall n s, String.length s <= n ->
    all_chars (fun d => negb (is_control d)) (Py.repr_chars table quote s)
    = true).
  { clear s. induction n as [|n IH]; intros s Hs.
    - destruct s; [reflexivity|cbn in Hs; lia].
    - destruct s as [|b0 s1]; [reflexivity|]. cbn [String.length] in Hs.
      rewrite repr_chars_unfold. cbv zeta.
      assert (Hone :
        all_chars (fun d => negb (is_control d))
          (Py.repr_char table quote (N_of_ascii b0) (String b0 EmptyString)
           ++ Py.repr_chars table quote s1) = true).
      { rewrite all_chars_app, IH by lia.
        rewrite repr_char_no_control; [reflexivity|exact Hq|].
        intros Hb. cbn [all_chars]. now rewrite (byte_no_control b0 Hb). }
      destruct (Py.is_lead2 b0) eqn:H2.
      { destruct s1 as [|b1 s2]; [exact Hone|].
        destruct (Py.is_cont b1) eqn:Hc1; [|exact Hone].
        cbn [String.length] in Hs.
        rewrite all_chars_app, IH by lia.
        rewrite repr_char_no_control; [reflexivity|exact Hq|].
        intros _. cbn [all_chars].
        rewrite (lead_no_control b0) by tauto.
        now rewrite (cont_no_control b1 Hc1). }
      destruct (Py.is_lead3 b0) eqn:H3.
      { destruct s1 as [|b1 [|b2 s3]]; try exact Hone.
        destruct (Py.is_cont b1) eqn:Hc1; [|exact Hone].
        destruct (Py.is_cont b2) eqn:Hc2; [|exact Hone].
        cbn [String.length andb] in *.
        rewrite all_chars_app, IH by lia.
        rewrite repr_char_no_control; [reflexivity|exact Hq|].
        intros _. cbn [all_chars].
        rewrite (lead_no_control b0) by tauto.
        now rewrite (cont_no_control b1 Hc1), (cont_no_control b2 Hc2). }
      destruct (Py.is_lead4 b0) eqn:H4; [|exact Hone].
      destruct s1 as [|b1 [|b2 [|b3 s4]]]; try exact Hone.
      destruct (Py.is_cont b1) eqn:Hc1; [|exact Hone].
      destruct (Py.is_cont b2) eqn:Hc2; [|exact Hone].
      destruct (Py.is_cont b3) eqn:Hc3; [|exact Hone].
      cbn [String.length andb] in *.
      rewrite all_chars_app, IH by lia.
      rewrite repr_char_no_control; [reflexivity|exact Hq|].
      intros _. cbn [all_chars].
      rewrite (lead_no_control b0) by tauto.
      now rewrite (cont_no_control b1 Hc1), (cont_no_control b2 Hc2),
        (cont_no_control b3 Hc3). }
  exact (Hlen (String.length s) s (le_n _)).
Qed.

Lemma repr_str_no_control (table : N -> bool) (s : string) :
  all_chars (fun d => negb (is_control d)) (Py.repr_str table s) = true.
Proof.
  unfold Py.repr_str.
  destruct (Py.has_char "'"%char s && negb (Py.has_char "034"%char s));
    cbn [all_chars]; rewrite all_chars_app, repr_chars_no_control by tauto;
    reflexivity.
Qed.

Lemma join_all_chars (p : ascii -> bool) (sep : string) (parts : list string) :
  all_chars p sep = true ->
  (forall part, In part parts -> all_chars p part = true) ->
  all_chars p (Py.join sep parts) = true.
Proof.
  intros Hsep. induction parts as [|part rest IH]; intros Hparts.
  - reflexivity.
  - destruct rest as [|part' rest'].
    + apply Hparts. now left.
    + change (Py.join sep (part :: part' :: rest'))
        with (part ++ sep ++ Py.join sep (part' :: rest'))%string.
      rewrite !all_chars_app, Hsep.
      rewrite IH by (intros q Hq; apply Hparts; now right).
      rewrite (Hparts part) by now left.
      reflexivity.
Qed.

(** X11.  Whatever the character table of the interpreter, the line
    printed for a row holds no control character of ASCII, that is no byte
    below 0x20: a tab, a newline or a carriage return inside a cell is
    written as a backslash escape, so the text of a row never holds the
    newline that ends a printed line. *)
Theorem printed_row_is_one_line (table : N -> bool) (row : list string) :
  all_chars (fun d => negb (is_control d)) (Py.repr_list table row) = true
  /\ Py.has_char "010"%char (Py.repr_list table row) = false.
Proof.
  assert (Hall :
    all_chars (fun d => negb (is_control d)) (Py.repr_list table row) = true).
  { unfold Py.repr_list. cbn [append all_chars].
    rewrite all_chars_app, join_all_chars; [reflexivity|reflexivity|].
    intros part Hin. apply in_map_iff in Hin. destruct Hin as (cell & <- & _).
    apply repr_str_no_control. }
  split; [exact Hall|].
  revert Hall. generalize (Py.repr_list table row). intros line.
  induction line as [|c line IH]; cbn [all_chars Py.has_char];
    [reflexivity|].
  intros Hall. apply andb_true_iff in Hall. destruct Hall as [Hc Hline].
  destruct (Ascii.eqb "010"%char c) eqn:Heq.
  - apply Ascii.eqb_eq in Heq. subst c. discriminate Hc.
  - now apply IH.
Qed.

Lemma repr_chars_plain_step (table : N -> bool) (c : ascii) (s : string) :
  is_plain c = true ->
  Py.repr_chars table "'"%char (String c s)
  = String c (Py.repr_chars table "'"%char s).
Proof.
  destruct c as [[] [] [] [] [] [] [] []]; intros H;
    first [discriminate H | reflexivity].
Qed.

Lemma plain_is_no_quote (c : ascii) :
  is_plain c = true -> Ascii.eqb "'"%char c = false.
Proof.
  destruct c as [[] [] [] [] [] [] [] []]; intros H;
    first [discriminate H | reflexivity].
Qed.

Lemma repr_str_plain (table : N -> bool) (s : string) :
  all_chars is_plain s = true ->
  Py.repr_str table s = ("'" ++ s ++ "'")%string.
Proof.
  intros Hs. unfold Py.repr_str.
  assert (Hquote : Py.has_char "'"%char s = false).
  { induction s as [|c s IH]; cbn [Py.has_char]; [reflexivity|].
    cbn [all_chars] in Hs. apply andb_true_iff in Hs. destruct Hs as [Hc Hs].
    rewrite (plain_is_no_quote c Hc). now apply IH. }
  rewrite Hquote. cbn [andb append]. f_equal. f_equal.
  clear Hquote.
  induction s as [|c s IH]; [reflexivity|].
  cbn [all_chars] in Hs. apply andb_true_iff in Hs. destruct Hs as [Hc Hs].
  rewrite (repr_chars_plain_step table c s Hc). cbn [append]. f_equal.
  now apply IH.
Qed.

(** X12.  A row whose cells are made of printable ASCII characters other
    than the single quote and the backslash is printed with every cell
    unchanged between single quotes, the cells separated by a comma and a
    space, between square brackets, whatever the character table. *)
Theorem plain_row_is_written_verbatim (table : N -> bool) (row : list string) :
  (forall cell, In cell row -> all_chars is_plain cell = true) ->
  Py.repr_list table row
  = ("[" ++ Py.join ", " (map (fun cell => "'" ++ cell ++ "'") row) ++ "]")%string.
Proof.
  intros Hrow. unfold Py.repr_list.
  rewrite (map_ext_in (Py.repr_str table)
             (fun cell => "'" ++ cell ++ "'")%string row);
    [reflexivity|].
  intros cell Hin. apply repr_str_plain, Hrow, Hin.
Qed.

Lemma plain_row_is_written_verbatim_witness :
  Py.repr_list Sample.unicode_14 ["Q1 2024"; "12.5 %"; ""]
  = ("[" ++ Py.join ", "
              (map (fun cell => "'" ++ cell ++ "'") ["Q1 2024"; "12.5 %"; ""])
         ++ "]")%string.
Proof.
  apply plain_row_is_written_verbatim.
  intros cell [<-|[<-|[<-|[]]]]; reflexivity.
Defined.

(** Cells with characters beyond ASCII, under the table of Unicode 14:
    the no-break space U+00A0, the next-line control U+0085, the line
    separator U+2028 and the zero-width space U+200B are not printable and
    are written as escapes; the letter U+00E9 and the character U+1F600 are
    printable and are copied; U+10FFFF is unassigned and written with
    eight digits. *)
Lemma repr_of_cells_beyond_ascii :
  Py.repr_list Sample.unicode_14 [("10" ++ Chars.no_break_space ++ "000")%string]
  = "['10\xa0000']"
  /\ Py.repr_list Sample.unicode_14
       [("a" ++ Chars.next_line ++ "b")%string;
        ("a" ++ Chars.line_separator ++ "b")%string;
        ("a" ++ Chars.zero_width_space ++ "b")%string]
     = "['a\x85b', 'a\u2028b', 'a\u200bb']"
  /\ Py.repr_list Sample.unicode_14
       [("caf" ++ Chars.e_acute)%string; Chars.grinning_face]
     = ("['caf" ++ Chars.e_acute ++ "', '" ++ Chars.grinning_face ++ "']")%string
  /\ Py.repr_list Sample.unicode_14 [Chars.last_code_point]
     = "['\U0010ffff']".
Proof. repeat split; vm_compute; reflexivity. Qed.

(** ** The worksheet list [get_sheet_data] prints *)

Lemma listing_lines_cons (s : Sheet) (ss : list Sheet) :
  listing_lines (s :: ss)
  = (if title_matches s
     then [("- " ++ title (properties s))%string;
           ("  ^^^ Found matching sheet: " ++ title (properties s))%string]
     else [("- " ++ title (properties s))%string])
    ++ listing_lines ss.
Proof. reflexivity. Qed.

Lemma title_line_prefixes (t : string) :
  String.prefix "- " ("- " ++ t) = true
  /\ String.prefix "- " ("  ^^^ Found matching sheet: " ++ t) = false
  /\ String.prefix "  ^^^ Found matching sheet: " ("- " ++ t) = false
  /\ String.prefix "  ^^^ Found matching sheet: "
       ("  ^^^ Found matching sheet: " ++ t) = true.
Proof.
  repeat split; try reflexivity; apply prefix_iff; eauto.
Qed.

Lemma listing_lines_titles (ss : list Sheet) :
  filter (String.prefix "- ") (listing_lines ss)
  = map (fun s => ("- " ++ title (properties s))%string) ss.
Proof.
  induction ss as [|s ss IH]; [reflexivity|].
  rewrite listing_lines_cons, filter_app, IH.
  destruct (title_line_prefixes (title (properties s))) as (H1 & H2 & _).
  destruct (title_matches s); cbn [filter]; rewrite H1, ?H2; reflexivity.
Qed.

Lemma listing_lines_marks (ss : list Sheet) :
  filter (String.prefix "  ^^^ Found matching sheet: ") (listing_lines ss)
  = map (fun s => ("  ^^^ Found matching sheet: " ++ title (properties s))%string)
      (filter title_matches ss).
Proof.
  induction ss as [|s ss IH]; [reflexivity|].
  rewrite listing_lines_cons, filter_app, IH.
  destruct (title_line_prefixes (title (properties s))) as (_ & _ & H3 & H4).
  cbn [filter]. destruct (title_matches s); cbn [filter];
    rewrite H3, ?H4; reflexivity.
Qed.

Lemma listing_lines_length (ss : list Sheet) :
  List.length (listing_lines ss)
  = List.length ss + List.length (filter title_matches ss).
Proof.
  induction ss as [|s ss IH]; [reflexivity|].
  rewrite listing_lines_cons, length_app, IH. cbn [filter].
  destruct (title_matches s); cbn [List.length]; lia.
Qed.

(** X13.  When its authentication and its listing succeed,
    [get_sheet_data] prints the heading [Available sheets:] and then, for
    every worksheet in listed order, the line [- <title>], none left out
    and none repeated; the lines [^^^ Found matching sheet: <title>] are
    those of the worksheets whose title contains ['PROMT Temp: UX'], all of
    them and not only the first.  Something is always printed after the
    list: the report or the diagnostic of the values request. *)
Theorem get_sheet_data_lists_every_title
  (w : World) (sid name rng : string) (st : State)
  (creds : Credentials) (sp : Spreadsheet) :
  from_service_account_file w (List.length (calls st))
    SERVICE_ACCOUNT_FILE SCOPES = Ok creds ->
  spreadsheets_get_execute w (S (List.length (calls st)))
    (build "sheets" "v4" creds) sid = Ok sp ->
  exists listing rest : list string,
    stdout (snd (get_sheet_data w sid name rng st))
    = stdout st ++ "Available sheets:" :: listing ++ rest
    /\ rest <> []
    /\ filter (String.prefix "- ") listing
       = map (fun s => ("- " ++ title (properties s))%string)
           (Py.dict_get (sheets sp) [])
    /\ filter (String.prefix "  ^^^ Found matching sheet: ") listing
       = map (fun s => ("  ^^^ Found matching sheet: " ++ title (properties s))%string)
           (filter title_matches (Py.dict_get (sheets sp) []))
    /\ List.length listing
       = List.length (Py.dict_get (sheets sp) [])
         + List.length (filter title_matches (Py.dict_get (sheets sp) [])).
Proof.
  intros Hauth Hget.
  rewrite get_sheet_data_run. cbv zeta. rewrite Hauth, Hget.
  exists (listing_lines (Py.dict_get (sheets sp) [])).
  destruct (values_get_execute w _ _ _ _) as [r|e]; cbn [snd stdout].
  - exists (report_lines (isprintable w) name rng r).
    split; [now rewrite <- app_assoc|].
    split; [unfold report_lines; destruct (Py.dict_get (values r) []);
            discriminate|].
    auto using listing_lines_titles, listing_lines_marks, listing_lines_length.
  - exists [("Error accessing sheet data: " ++ exn_str e)%string].
    split; [now rewrite <- app_assoc|].
    split; [discriminate|].
    auto using listing_lines_titles, listing_lines_marks, listing_lines_length.
Qed.

Lemma get_sheet_data_lists_every_title_witness :
  exists listing rest : list string,
    stdout (snd (get_sheet_data Sample.all_good SPREADSHEET_ID
                   "PROMT Temp: UX Researcher" "A1:Z100" init))
    = stdout init ++ "Available sheets:" :: listing ++ rest
    /\ rest <> []
    /\ filter (String.prefix "- ") listing
       = map (fun s => ("- " ++ title (properties s))%string)
           (Py.dict_get (sheets Sample.metadata) [])
    /\ filter (String.prefix "  ^^^ Found matching sheet: ") listing
       = map (fun s => ("  ^^^ Found matching sheet: " ++ title (properties s))%string)
           (filter title_matches (Py.dict_get (sheets Sample.metadata) []))
    /\ List.length listing
       = List.length (Py.dict_get (sheets Sample.metadata) [])
         + List.length
             (filter title_matches (Py.dict_get (sheets Sample.metadata) [])).
Proof.
  apply (get_sheet_data_lists_every_title Sample.all_good SPREADSHEET_ID
           "PROMT Temp: UX Researcher" "A1:Z100" init
           (mkCredentials SERVICE_ACCOUNT_FILE SCOPES) Sample.metadata);
    reflexivity.
Defined.

(** ** When [get_sheet_data] returns *)

(** X14.  A call of [get_sheet_data] returns normally exactly when its
    authentication and its listing succeed; the answer to the values
    request, and the worksheet name and range asked for, have no part in
    it. *)
Theorem get_sheet_data_returns_iff
  (w : World) (sid name rng : string) (st : State) :
  fst (get_sheet_data w sid name rng st) = Ok tt
  <-> exists (creds : Credentials) (sp : Spreadsheet),
      from_service_account_file w (List.length (calls st))
        SERVICE_ACCOUNT_FILE SCOPES = Ok creds
      /\ spreadsheets_get_execute w (S (List.length (calls st)))
           (build "sheets" "v4" creds) sid = Ok sp.
Proof.
  rewrite get_sheet_data_run. cbv zeta.
  destruct (from_service_account_file w _ _ _) as [creds|e] eqn:Hauth.
  - destruct (spreadsheets_get_execute w _ _ _) as [sp|e] eqn:Hget.
    + split; [intros _; eauto|intros _].
      destruct (values_get_execute w _ _ _ _); reflexivity.
    + split; [discriminate|].
      intros (creds' & sp & [= <-] & Hget'). congruence.
  - split; [discriminate|]. intros (creds & sp & [=] & _).
Qed.

(** ** The default name *)

Lemma resolved_line_warning (ss : list Sheet) :
  resolved_line ss = warning_line -> first_match ss = None.
Proof.
  unfold resolved_line. destruct (first_match ss); [discriminate|reflexivity].
Qed.

Lemma first_match_none_all (ss : list Sheet) (s : Sheet) :
  first_match ss = None -> In s ss -> title_matches s = false.
Proof.
  intros Hnone Hin. exact (find_none _ _ Hnone s Hin).
Qed.

(** X15.  When the resolver prints its warning, neither the default name
    nor the other spelling used by the second attempt is the title of a
    listed worksheet: both contain ['PROMT Temp: UX'], so a worksheet with
    such a title would have been selected.  The values request that follows
    the warning thus names a worksheet the listing did not show. *)
Theorem warned_names_are_not_listed (ss : list Sheet) (st : State) :
  stdout (snd (find_sheet_name ss SHEET_NAME st))
  = stdout st ++ [warning_line] ->
  fst (find_sheet_name ss SHEET_NAME st) = Ok SHEET_NAME
  /\ ~ In SHEET_NAME (map (fun s => title (properties s)) ss)
  /\ ~ In "PROMT Temp: UX Researcher" (map (fun s => title (properties s)) ss).
Proof.
  rewrite find_sheet_name_run. cbn [fst snd stdout]. intros Hout.
  apply app_inv_head in Hout. injection Hout as Hline.
  apply resolved_line_warning in Hline.
  split; [unfold resolved_name; now rewrite Hline|].
  split; intros Hin; apply in_map_iff in Hin; destruct Hin as (s & Ht & Hin);
    pose proof (first_match_none_all ss s Hline Hin) as Hs;
    unfold title_matches in Hs; rewrite Ht in Hs; discriminate Hs.
Qed.

Lemma warned_names_are_not_listed_witness :
  fst (find_sheet_name (sheets_of ["Sheet1"; "Archive"]) SHEET_NAME init)
  = Ok SHEET_NAME
  /\ ~ In SHEET_NAME
         (map (fun s => title (properties s)) (sheets_of ["Sheet1"; "Archive"]))
  /\ ~ In "PROMT Temp: UX Researcher"
         (map (fun s => title (properties s)) (sheets_of ["Sheet1"; "Archive"])).
Proof.
  apply (warned_names_are_not_listed (sheets_of ["Sheet1"; "Archive"]) init).
  reflexivity.
Defined.
